(** * TimeCapsule: geospatial anchoring and gesture interaction

    A shallow embedding of the interaction core of the TimeCapsule
    application ([App.tsx], [components/ARView.tsx],
    [components/CapsuleList.tsx]) and the properties its specification
    states about it.

    Conventions of the embedding.

    - A JavaScript number is idealised as a real number: [Math.sqrt],
      [Math.pow], [Math.max], [Math.min], [Math.cos], [Math.sin] and
      [Math.PI] are the functions of the same name on [R], and a
      comparison is the order of [R].  The one place where the source
      uses the value [Infinity] is modelled by the type [Num].
    - A React component is a set of state variables and of functions that
      read the values of the current render and call state setters.  A
      function of the source becomes a function from the values it reads
      to the list of setter calls it makes ([Eff]); applying the calls to
      a state is [commit].  A thrown exception stops the function; the
      calls it made before stay.
    - A function that is made in one render and called later (the
      callback given to the hand tracker, the function of a timeout, a
      save that ends after an [await]) reads the values of the render
      that made it, not the ones of the state it is applied to: these
      values are arguments of the function or of the event.
    - [utils/geoUtils] is imported by the source but is not part of the
      files at hand: its functions are the fields of the classes
      [GeoUtils] and [GeoFormat]. *)

From Stdlib Require Import Reals Lra Lia List String Bool Arith ZArith.
From Stdlib Require Import DecimalString.
Import ListNotations.

(* ================================================================== *)
(** * Part I: the embedding                                            *)
(* ================================================================== *)

(** ** JavaScript values *)

Module Js.

Definition ltb (a b : R) : bool := if Rlt_dec a b then true else false.
Definition leb (a b : R) : bool := if Rle_dec a b then true else false.

(** A number that may be [Infinity] (CapsuleList uses it as a distance). *)
Inductive Num : Type :=
| Fin (r : R)
| Infinity.

(** [n < b] for a finite bound [b]. *)
Definition num_ltb (n : Num) (b : R) : bool :=
  match n with
  | Fin r => ltb r b
  | Infinity => false
  end.

(** [`${n}`] for an array length. *)
Definition string_of_length (n : nat) : string :=
  NilZero.string_of_uint (Nat.to_uint n).

(** [n.toString()] for an integer. *)
Definition toString (n : Z) : string :=
  NilZero.string_of_int (Z.to_int n).

Inductive Error : Type :=
| TypeError.

Inductive completion (A : Type) : Type :=
| Ok (a : A)
| Throw (e : Error).

Arguments Ok {A} a.
Arguments Throw {A} e.

(** A computation that calls setters (values of [U]) and then either
    returns or throws. *)
Definition Eff (U A : Type) : Type := (list U * completion A)%type.

Definition ret {U A} (a : A) : Eff U A := ([], Ok a).

Definition throw {U A} (e : Error) : Eff U A := ([], Throw e).

Definition call {U} (u : U) : Eff U unit := ([u], Ok tt).

Definition bind {U A B} (m : Eff U A) (k : A -> Eff U B) : Eff U B :=
  match m with
  | (us, Ok a) => let (us', r) := k a in (us ++ us', r)
  | (us, Throw e) => (us, Throw e)
  end.

Definition calls {U A} (m : Eff U A) : list U := fst m.

Definition outcome {U A} (m : Eff U A) : completion A := snd m.

(** [xs.forEach(f)] *)
Fixpoint forEach {U A} (f : A -> Eff U unit) (xs : list A) : Eff U unit :=
  match xs with
  | [] => ret tt
  | a :: xs' => bind (f a) (fun _ => forEach f xs')
  end.

(** [Array.prototype.sort] with a comparator returning a number.  The
    language requires the sort to be stable; for a comparator that
    orders the elements consistently the result is then determined, and
    the stable insertion sort computes it: an element moves behind its
    successor only when the comparator is positive on the pair. *)
Fixpoint sort_insert {A} (cmp : A -> A -> R) (a : A) (l : list A) : list A :=
  match l with
  | [] => [a]
  | b :: l' =>
      if ltb 0 (cmp a b) then b :: sort_insert cmp a l' else a :: b :: l'
  end.

Definition sort {A} (cmp : A -> A -> R) (l : list A) : list A :=
  fold_right (sort_insert cmp) [] l.

End Js.

Declare Scope eff_scope.
Delimit Scope eff_scope with eff.
Notation "x <- m ;; k" := (Js.bind m (fun x => k))
  (at level 61, m at next level, right associativity) : eff_scope.
Notation "m ;;; k" := (Js.bind m (fun _ => k))
  (at level 61, right associativity) : eff_scope.

(** ** Data model ([types.ts], as the source uses it) *)

Record Coordinates : Type := mkCoordinates {
  latitude : R;
  longitude : R
}.

Record User : Type := mkUser {
  user_id : string;
  username : string
}.

Record Capsule : Type := mkCapsule {
  id : string;
  content : string;
  timestamp : Z;
  coordinates : Coordinates;
  locationName : string;
  aiAnalysis : string;
  isLocked : bool;
  image : option string;
  video : option string;
  audio : option string;
  signalData : option string;
  userId : string
}.

Inductive ViewState : Type :=
| radar
| create
| view_capsule
| ar_view
| profile
| signal_composer.

(** [utils/geoUtils]: distance in meters and compass bearing in degrees. *)
Class GeoUtils : Type := {
  calculateDistance : Coordinates -> Coordinates -> R;
  calculateBearing : Coordinates -> Coordinates -> R
}.

(** [{ latitude: 0, longitude: 0 }] *)
Definition origin : Coordinates := mkCoordinates 0 0.

(** ** ARView: hand tracking ([components/ARView.tsx]) *)

Module ARView.

Import Js.
Local Open Scope R_scope.
Local Open Scope eff_scope.

(** One hand landmark, as MediaPipe delivers it. *)
Record Landmark : Type := mkLandmark {
  x : R;
  y : R;
  z : R
}.

Inductive Gesture : Type :=
| OPEN
| CLOSED
| NONE.

Definition Gesture_eqb (a b : Gesture) : bool :=
  match a, b with
  | OPEN, OPEN | CLOSED, CLOSED | NONE, NONE => true
  | _, _ => false
  end.

(** The state variables of the component that the interaction core uses. *)
Record State : Type := mkState {
  selectedCapsule : option Capsule;
  debugStatus : string;
  handGesture : Gesture;
  handDetected : bool
}.

(** The state setters. *)
Inductive Update : Type :=
| setSelectedCapsule (c : option Capsule)
| setDebugStatus (s : string)
| setHandGesture (g : Gesture)
| setHandDetected (b : bool).

Definition apply (st : State) (u : Update) : State :=
  match u with
  | setSelectedCapsule c =>
      mkState c (debugStatus st) (handGesture st) (handDetected st)
  | setDebugStatus s =>
      mkState (selectedCapsule st) s (handGesture st) (handDetected st)
  | setHandGesture g =>
      mkState (selectedCapsule st) (debugStatus st) g (handDetected st)
  | setHandDetected b =>
      mkState (selectedCapsule st) (debugStatus st) (handGesture st) b
  end.

(** The state once the setter calls of a handler are applied. *)
Definition commit {A} (st : State) (m : Eff Update A) : State :=
  fold_left apply (calls m) st.

(** [lm.x], [lm.y] where [lm = landmarks[i]]: reading a property of
    [undefined] throws. *)
Definition prop (f : Landmark -> R) (lm : option Landmark) : Eff Update R :=
  match lm with
  | Some l => ret (f l)
  | None => throw TypeError
  end.

(** [Math.sqrt(Math.pow(p.x - wrist.x, 2) + Math.pow(p.y - wrist.y, 2))],
    the expression the source writes for [palmSize], [distToWrist] and
    [thumbDist]. *)
Definition distToWrist (p wrist : option Landmark) : Eff Update R :=
  px <- prop x p ;;
  wx <- prop x wrist ;;
  py <- prop y p ;;
  wy <- prop y wrist ;;
  ret (sqrt ((px - wx) ^ 2 + (py - wy) ^ 2)).

Definition tips : list nat := [8; 12; 16; 20]%nat.

(** The body of [tips.forEach], on the counter [foldedFingers]. *)
Definition countTip (landmarks : list Landmark) (wrist : option Landmark)
    (palmSize : R) (tipIdx : nat) (foldedFingers : nat) : Eff Update nat :=
  let tip := nth_error landmarks tipIdx in
  d <- distToWrist tip wrist ;;
  ret (if ltb d (palmSize * 1.6) then S foldedFingers else foldedFingers).

Fixpoint countTips (landmarks : list Landmark) (wrist : option Landmark)
    (palmSize : R) (idxs : list nat) (foldedFingers : nat) : Eff Update nat :=
  match idxs with
  | [] => ret foldedFingers
  | tipIdx :: idxs' =>
      n <- countTip landmarks wrist palmSize tipIdx foldedFingers ;;
      countTips landmarks wrist palmSize idxs' n
  end.

(** The value of [foldedFingers] where "Determine State" begins. *)
Definition foldedFingers (landmarks : list Landmark) : Eff Update nat :=
  let wrist := nth_error landmarks 0 in
  let middleMCP := nth_error landmarks 9 in
  palmSize <- distToWrist middleMCP wrist ;;
  n <- countTips landmarks wrist palmSize tips 0%nat ;;
  let thumbTip := nth_error landmarks 4 in
  thumbDist <- distToWrist thumbTip wrist ;;
  ret (if ltb thumbDist (palmSize * 1.3) then S n else n).

(** [newState]: [NONE] stands for "no definitive state". *)
Definition newState (foldedFingers : nat) : Gesture :=
  if (4 <=? foldedFingers)%nat then CLOSED
  else if (foldedFingers <=? 1)%nat then OPEN
  else NONE.

(** [detectGesture], reading the [handGesture] of the render. *)
Definition detectGesture (handGesture : Gesture) (landmarks : list Landmark)
    : Eff Update unit :=
  n <- foldedFingers landmarks ;;
  let newState := newState n in
  if negb (Gesture_eqb newState NONE)
     && negb (Gesture_eqb newState handGesture)
  then call (setHandGesture newState)
  else ret tt.

(** What [hands.onResults] finds around it: the overlay canvas, its 2D
    context, and the [streamActive] of the render. *)
Record Surroundings : Type := mkSurroundings {
  handCanvas : bool;
  context2d : bool;
  streamActive : bool
}.

(** The [results] object: [multiHandLandmarks] may be missing. *)
Record Results : Type := mkResults {
  multiHandLandmarks : option (list (list Landmark))
}.

(** The callback given to [hands.onResults].  Drawing on the canvas
    changes no state and is left out. *)
Definition onResults (env : Surroundings) (handGesture : Gesture)
    (results : Results) : Eff Update unit :=
  if negb (handCanvas env) then ret tt
  else if negb (context2d env) then ret tt
  else
    match multiHandLandmarks results with
    | Some (hand :: hands) =>
        call (setHandDetected true) ;;;
        call (setDebugStatus "TARGET ACQUIRED") ;;;
        forEach (detectGesture handGesture) (hand :: hands)
    | _ =>
        call (setHandDetected false) ;;;
        call (setHandGesture NONE) ;;;
        if streamActive env
        then call (setDebugStatus "SCANNING FOR HAND SIGNAL...")
        else ret tt
    end.

(** The [handGesture] that the callback reads.  The effect that gives
    the callback to [hands.onResults] depends on [streamActive] alone,
    so the callback keeps the [handGesture] of the render in which the
    stream became active; no result arrives before that render, and the
    gesture is then still the initial ['NONE']. *)
Definition registered : Gesture := NONE.

(** One perception tick: the registered callback runs and its setter
    calls are applied to the state. *)
Definition tick (env : Surroundings) (st : State) (results : Results)
    : State :=
  commit st (onResults env registered results).

(** ** ARView: interaction, projection and the detail panel *)

Section WithGeoUtils.

Context `{GeoUtils}.

(** The comparator of the interaction effect. *)
Definition byDistance (userLocation : Coordinates) (a b : Capsule) : R :=
  calculateDistance userLocation (coordinates a)
  - calculateDistance userLocation (coordinates b).

(** The effect on [handGesture, capsules, userLocation, selectedCapsule]. *)
Definition interactionEffect (handGesture : Gesture)
    (capsules : list Capsule) (userLocation : Coordinates)
    (selectedCapsule : option Capsule) : Eff Update unit :=
  let selected :=
    match selectedCapsule with Some _ => true | None => false end in
  if Gesture_eqb handGesture OPEN && negb selected then
    if (0 <? List.length capsules)%nat then
      let sorted := sort (byDistance userLocation) capsules in
      call (setSelectedCapsule (nth_error sorted 0))
    else ret tt
  else if Gesture_eqb handGesture CLOSED && selected then
    call (setSelectedCapsule None)
  else ret tt.

(** What the scene receives for one capsule. *)
Record Placement : Type := mkPlacement {
  angleRad : R;
  visualDistance : R;
  position : R * R * R;
  isUnlockable : bool;
  mainColor : Z;
  placed_id : string
}.

(** The body of [capsules.forEach] in the object-creation effect. *)
Definition place (userLocation : Coordinates) (capsule : Capsule)
    : Placement :=
  let distance := calculateDistance userLocation (coordinates capsule) in
  let bearing := calculateBearing userLocation (coordinates capsule) in
  let angleRad := (90 - bearing) * (PI / 180) in
  let visualDistance := Rmax 5 (Rmin (distance / 5) 50) in
  let x := cos angleRad * visualDistance in
  let z := - sin angleRad * visualDistance in
  let isUnlockable := ltb distance 50 in
  let mainColor := if isUnlockable then 0x22d3ee%Z else 0xff0055%Z in
  mkPlacement angleRad visualDistance (x, 0, z) isUnlockable mainColor
    (id capsule).

(** The object-creation effect: nothing without a scene or a location. *)
Definition createObjects (scene : bool) (userLocation : option Coordinates)
    (capsules : list Capsule) : list Placement :=
  match userLocation with
  | Some loc => if scene then map (place loc) capsules else []
  | None => []
  end.

(** The condition of the detail panel of the selected capsule. *)
Definition panelUnlocked (userLocation : Coordinates)
    (selectedCapsule : Capsule) : bool :=
  ltb (calculateDistance userLocation (coordinates selectedCapsule)) 50.

End WithGeoUtils.

End ARView.

(** ** CapsuleList ([components/CapsuleList.tsx]) *)

Module CapsuleList.

Import Js.
Local Open Scope R_scope.

Section WithGeoUtils.

Context `{GeoUtils}.

(** [distance] of a list row: without a location it is [Infinity]. *)
Definition distance (currentLocation : option Coordinates)
    (capsule : Capsule) : Num :=
  match currentLocation with
  | Some loc => Fin (calculateDistance loc (coordinates capsule))
  | None => Infinity
  end.

(** "Unlock logic: User must be within 50 meters". *)
Definition isUnlockable (currentLocation : option Coordinates)
    (capsule : Capsule) : bool :=
  num_ltb (distance currentLocation capsule) 50.

End WithGeoUtils.

End CapsuleList.

(** ** App ([App.tsx]) *)

Module App.

Import Js.
Local Open Scope R_scope.
Local Open Scope eff_scope.
Local Open Scope string_scope.

(** The state variables of the component that the radar and the scan use. *)
Record State : Type := mkState {
  currentUser : option User;
  currentView : ViewState;
  location : option Coordinates;
  isScanning : bool;
  capsules : list Capsule;
  nearbyCapsules : list Capsule;
  statusMessage : string
}.

(** The state setters; [appendCapsule c] is
    [setCapsules(prev => [...prev, c])]. *)
Inductive Update : Type :=
| setCurrentView (v : ViewState)
| setLocation (c : option Coordinates)
| setIsScanning (b : bool)
| setCapsules (l : list Capsule)
| appendCapsule (c : Capsule)
| setNearbyCapsules (l : list Capsule)
| setStatusMessage (s : string).

Definition apply (st : State) (u : Update) : State :=
  match u with
  | setCurrentView v =>
      mkState (currentUser st) v (location st) (isScanning st)
        (capsules st) (nearbyCapsules st) (statusMessage st)
  | setLocation c =>
      mkState (currentUser st) (currentView st) c (isScanning st)
        (capsules st) (nearbyCapsules st) (statusMessage st)
  | setIsScanning b =>
      mkState (currentUser st) (currentView st) (location st) b
        (capsules st) (nearbyCapsules st) (statusMessage st)
  | setCapsules l =>
      mkState (currentUser st) (currentView st) (location st)
        (isScanning st) l (nearbyCapsules st) (statusMessage st)
  | appendCapsule c =>
      mkState (currentUser st) (currentView st) (location st)
        (isScanning st) (capsules st ++ [c]) (nearbyCapsules st)
        (statusMessage st)
  | setNearbyCapsules l =>
      mkState (currentUser st) (currentView st) (location st)
        (isScanning st) (capsules st) l (statusMessage st)
  | setStatusMessage s =>
      mkState (currentUser st) (currentView st) (location st)
        (isScanning st) (capsules st) (nearbyCapsules st) s
  end.

Definition commit {A} (st : State) (m : Eff Update A) : State :=
  fold_left apply (calls m) st.

(** The callbacks of [watchPosition]. *)
Definition onPosition (lat lon : R) : Eff Update unit :=
  call (setLocation (Some (mkCoordinates lat lon))) ;;;
  call (setStatusMessage "GPS LOCKED. SYSTEM ONLINE.").

Definition onPositionError : Eff Update unit :=
  call (setStatusMessage "WARNING: GPS SIGNAL LOST").

(** A pending [setTimeout]. *)
Record Timeout : Type := mkTimeout {
  callback : Eff Update unit;
  delay : Z
}.

(** The function given to [setTimeout] by [handleScan]; it reads the
    [nearbyCapsules] of the render in which [handleScan] was made. *)
Definition scanTimeout (nearbyCapsules : list Capsule) : Eff Update unit :=
  call (setIsScanning false) ;;;
  if (0 <? List.length nearbyCapsules)%nat then
    call (setStatusMessage
            (string_of_length (List.length nearbyCapsules)
             ++ " SIGNALS DETECTED. ENGAGING HUD.")) ;;;
    call (setCurrentView ar_view)
  else
    call (setStatusMessage "NO TRACES FOUND IN SECTOR.").

(** [handleScan]; it returns the timeout it has set. *)
Definition handleScan (location : option Coordinates)
    (nearbyCapsules : list Capsule) : Eff Update Timeout :=
  match location with
  | None =>
      call (setStatusMessage
              "WARNING: SATELLITE LINK UNSTABLE. SCANNING CACHED SECTOR...")
  | Some _ =>
      call (setStatusMessage "SCANNING LOCAL SECTOR (1KM RADIUS)...")
  end ;;;
  call (setIsScanning true) ;;;
  ret (mkTimeout (scanTimeout nearbyCapsules) 2000).

(** [handleSaveCapsule]; [now] and [now'] are the two readings of
    [Date.now()]. *)
Definition handleSaveCapsule (currentUser : option User)
    (location : option Coordinates) (now now' : Z)
    (content aiAnalysis locationName : string)
    (image video audio signalData : option string) : Eff Update unit :=
  match currentUser with
  | None => ret tt
  | Some user =>
      let activeLocation :=
        match location with
        | Some loc => loc
        | None => mkCoordinates 0 0
        end in
      let newCapsule :=
        mkCapsule (toString now) content now' activeLocation locationName
          aiAnalysis false image video audio signalData (user_id user) in
      call (appendCapsule newCapsule) ;;;
      call (setCurrentView radar) ;;;
      call (setStatusMessage "MEMORY TRACE ESTABLISHED.")
  end.

Section WithGeoUtils.

Context `{GeoUtils}.

(** "Find capsules within 1000 meters (1km) for the radar count". *)
Definition within1km (loc : Coordinates) (c : Capsule) : bool :=
  leb (calculateDistance loc (coordinates c)) 1000.

(** The effect on [location, capsules]. *)
Definition nearbyEffect (location : option Coordinates)
    (capsules : list Capsule) : Eff Update unit :=
  match location with
  | Some loc =>
      let nearby := filter (within1km loc) capsules in
      call (setNearbyCapsules nearby)
  | None => ret tt
  end.

(** What can reach the component between two scans.  [Save] is a call
    of [onSave]: it comes after an [await] in [CreateCapsule.handleSave]
    (or after the timer of the signal composer) and runs the
    [handleSaveCapsule] of the render in which the save was started,
    with the [currentUser] and the [location] of that render. *)
Inductive Event : Type :=
| Position (lat lon : R)
| PositionError
| Stored (saved : list Capsule)
| Save (currentUser : option User) (location : option Coordinates)
    (now now' : Z) (content aiAnalysis locationName : string)
    (image video audio signalData : option string)
| Navigate (v : ViewState).

(** The render after [location] or [capsules] has changed runs the
    effect on the new values. *)
Definition rerun (st : State) : State :=
  commit st (nearbyEffect (location st) (capsules st)).

Definition step (st : State) (ev : Event) : State :=
  match ev with
  | Position lat lon => rerun (commit st (onPosition lat lon))
  | PositionError => commit st onPositionError
  | Stored saved => rerun (commit st (call (setCapsules saved)))
  | Save currentUser location now now' content aiAnalysis locationName
      image video audio signalData =>
      match currentUser with
      | None => st
      | Some _ =>
          rerun (commit st
                   (handleSaveCapsule currentUser location now now'
                      content aiAnalysis locationName image video audio
                      signalData))
      end
  | Navigate v => commit st (call (setCurrentView v))
  end.

(** A scan: the trigger on the values of [st], the events of the latency
    window, then the timeout. *)
Definition scan (st : State) (window : list Event) : State :=
  let trigger := handleScan (location st) (nearbyCapsules st) in
  match outcome trigger with
  | Ok timeout =>
      commit (fold_left step window (commit st trigger)) (callback timeout)
  | Throw _ => commit st trigger
  end.

End WithGeoUtils.

End App.

(** ** The specification's own notions

    These definitions follow the words of the specification, not the
    code; the theorems compare the code with them. *)

Module Spec.

Import Js ARView.
Local Open Scope R_scope.

(** Section 3: a frame is a sequence of 3D points; the euclidean
    distance of two of them. *)
Definition euclideanDistance (p q : Landmark) : R :=
  sqrt ((x p - x q) ^ 2 + (y p - y q) ^ 2 + (z p - z q) ^ 2).

(** The distance of the projections on the image plane. *)
Definition planarDistance (p q : Landmark) : R :=
  sqrt ((x p - x q) ^ 2 + (y p - y q) ^ 2).

(** Landmark [i] of a frame that has one. *)
Definition landmark (frame : list Landmark) (i : nat) : Landmark :=
  nth i frame (mkLandmark 0 0 0).

(** Section 4.3, step 1. *)
Definition palmSize (dist : Landmark -> Landmark -> R)
    (frame : list Landmark) : R :=
  dist (landmark frame 9) (landmark frame 0).

(** Section 4.3, steps 2 and 3: finger [i] is folded for the ratio [k]. *)
Definition folded (dist : Landmark -> Landmark -> R)
    (frame : list Landmark) (i : nat) (k : R) : Prop :=
  dist (landmark frame i) (landmark frame 0) < palmSize dist frame * k.

Definition foldedb (dist : Landmark -> Landmark -> R)
    (frame : list Landmark) (i : nat) (k : R) : bool :=
  ltb (dist (landmark frame i) (landmark frame 0)) (palmSize dist frame * k).

(** Section 4.3, steps 2 and 3: the four fingertips at 1.6, the thumb
    tip at 1.3. *)
Definition foldedCount (dist : Landmark -> Landmark -> R)
    (frame : list Landmark) : nat :=
  (List.length
     (filter (fun i => foldedb dist frame i 1.6) [8; 12; 16; 20]%nat)
   + (if foldedb dist frame 4 1.3 then 1 else 0))%nat.

(** Section 4.3, step 4. *)
Inductive Classification : Type :=
| IsClosed
| IsOpen
| Ambiguous.

Definition classification (foldedCount : nat) : Classification :=
  if (4 <=? foldedCount)%nat then IsClosed
  else if (foldedCount <=? 1)%nat then IsOpen
  else Ambiguous.

(** Section 4.2, step 2. *)
Definition clamp (v lo hi : R) : R :=
  if Rlt_dec v lo then lo else if Rlt_dec hi v then hi else v.

(** Section 4.4. *)
Definition isUnlockable (distanceMeters : R) : Prop :=
  distanceMeters < 50.

(** Section 4.6: [c] is the element of [l] of least [key], the first of
    them in the order of [l] when several have it. *)
Definition firstLeast {A : Type} (key : A -> R) (l : list A) (c : A) : Prop :=
  exists before after,
    l = before ++ c :: after
    /\ (forall e, In e before -> key c < key e)
    /\ (forall e, In e after -> key c <= key e).

End Spec.

(** ** Scenarios

    Concrete frames, capsules and states on which the properties below
    are exercised.  Landmark coordinates are normalised to [[0,1]]. *)

Module Scenario.

Import Js ARView.
Local Open Scope R_scope.
Local Open Scope string_scope.

(** A frame of 21 landmarks given by the seven that the classifier reads;
    the other joints sit on the knuckle. *)
Definition frame (wrist thumbTip middleMCP indexTip middleTip ringTip
    pinkyTip : Landmark) : list Landmark :=
  let k := middleMCP in
  [wrist; k; k; k; thumbTip; k; k; k; indexTip; middleMCP; k; k; middleTip;
   k; k; k; ringTip; k; k; k; pinkyTip].

Definition wrist0 : Landmark := mkLandmark 0.5 0.9 0.
Definition knuckle0 : Landmark := mkLandmark 0.5 0.6 0.
Definition stretched : Landmark := mkLandmark 0.5 0.1 0.
Definition curled : Landmark := mkLandmark 0.5 0.5 0.
Definition thumbOut : Landmark := mkLandmark 0.2 0.5 0.
Definition thumbIn : Landmark := mkLandmark 0.5 0.6 0.

(** The tip is above the knuckle on the image and 0.4 behind it. *)
Definition behind : Landmark := mkLandmark 0.5 0.6 0.4.

Definition openPalm : list Landmark :=
  frame wrist0 thumbOut knuckle0 stretched stretched stretched stretched.

Definition fist : list Landmark :=
  frame wrist0 thumbIn knuckle0 curled curled curled curled.

(** Index and middle finger stretched, the others curled, thumb out. *)
Definition twoFingers : list Landmark :=
  frame wrist0 thumbOut knuckle0 stretched stretched curled curled.

(** Every tip right behind the knuckle: a fist for the image plane, an
    open hand for the distances in space. *)
Definition pointingAtCamera : list Landmark :=
  frame wrist0 behind knuckle0 behind behind behind behind.

(** A frame of one landmark, and one of 22. *)
Definition wristOnly : list Landmark := [wrist0].

Definition overlong : list Landmark := openPalm ++ [stretched].

Definition mounted : Surroundings := mkSurroundings true true true.

Definition showing (g : Gesture) : State := mkState None "" g true.

(** A world on one line for the scenarios: a position is a number of
    meters along a meridian, kept in the latitude; the distance is the
    gap between two positions, the bearing is north or south. *)
Definition meridian : GeoUtils := {|
  calculateDistance a b := Rabs (latitude b - latitude a);
  calculateBearing a b :=
    if Rle_dec (latitude a) (latitude b) then 0 else 180
|}.

Definition capsuleAt (name : string) (lat : R) : Capsule :=
  mkCapsule name "" 0 (mkCoordinates lat 0) "" "" false None None None None
    "".

Definition idle (nearby : list Capsule) : App.State :=
  App.mkState None radar (Some origin) false nearby nearby "".

End Scenario.

(* ================================================================== *)
(** * Part I, continued: the code around the interaction core          *)
(* ================================================================== *)

From Stdlib Require Import Permutation Sorted.

(** ** ARView: the overlay box, the pointer and the orientation *)

Module Overlay.

Import Js ARView.
Local Open Scope R_scope.

(** [minX, minY, maxX, maxY] of [drawSciFiHandOverlay]. *)
Record Box : Type := mkBox {
  minX : R;
  minY : R;
  maxX : R;
  maxY : R
}.

(** [toPixel]: normalised coordinates to canvas pixels. *)
Definition toPixel (width height : R) (lm : Landmark) : R * R :=
  (x lm * width, y lm * height).

(** The body of the second [landmarks.forEach] of the overlay. *)
Definition grow (width height : R) (b : Box) (lm : Landmark) : Box :=
  let p := toPixel width height lm in
  let minX := if ltb (fst p) (minX b) then fst p else minX b in
  let maxX := if ltb (maxX b) (fst p) then fst p else maxX b in
  let minY := if ltb (snd p) (minY b) then snd p else minY b in
  let maxY := if ltb (maxY b) (snd p) then snd p else maxY b in
  mkBox minX minY maxX maxY.

Definition pad : R := 20.

(** "Calculate Bounding Box" and "Add padding". *)
Definition boundingBox (width height : R) (landmarks : list Landmark) : Box :=
  let b := fold_left (grow width height) landmarks (mkBox width height 0 0) in
  mkBox (minX b - pad) (minY b - pad) (maxX b + pad) (maxY b + pad).

End Overlay.

Module Pointer.

Import Js ARView.
Local Open Scope eff_scope.

(** The end of [handleCanvasClick].  [hit] is the index in
    [capsulesRef] of the group that the ray meets first, if it meets
    one (the ray casting and the walk up to the group are three.js);
    [ready] tells that the camera and the scene exist. *)
Definition handleCanvasClick (ready : bool) (hit : option nat)
    (capsulesRef : list Placement) (capsules : list Capsule)
    : Eff Update unit :=
  if negb ready then ret tt
  else
    match hit with
    | None => ret tt
    | Some i =>
        match nth_error capsulesRef i with
        | Some capsuleRef =>
            match
              find (fun c => String.eqb (id c) (placed_id capsuleRef))
                capsules
            with
            | Some capsule => call (setSelectedCapsule (Some capsule))
            | None => ret tt
            end
        | None => ret tt
        end
    end.

End Pointer.

Module Orientation.

Local Open Scope R_scope.

(** A number that may be missing ([null], [undefined]) is truthy when
    it is there and is not zero. *)
Definition truthy (v : option R) : bool :=
  match v with
  | Some r => if Req_dec_T r 0 then false else true
  | None => false
  end.

Definition value (v : option R) : R :=
  match v with
  | Some r => r
  | None => 0
  end.

(** [THREE.MathUtils.degToRad] *)
Definition degToRad (degrees : R) : R := degrees * (PI / 180).

(** [handleOrientation]: the [rotation.y] given to the camera, from
    [event.alpha] and [event.webkitCompassHeading]. *)
Definition handleOrientation (alpha webkitCompassHeading : option R) : R :=
  let alpha := if truthy alpha then degToRad (value alpha) else 0 in
  let heading :=
    if truthy webkitCompassHeading
    then degToRad (value webkitCompassHeading)
    else alpha in
  let rotation := if truthy webkitCompassHeading then - heading else heading in
  rotation.

(** three.js: a camera looks along its negative z axis; turned by
    [rotation.y = theta] about the vertical axis it looks along this
    direction of the ground plane. *)
Definition viewDirection (theta : R) : R * R * R :=
  (- sin theta, 0, - cos theta).

End Orientation.

(** ** SignalComposer ([components/SignalComposer.tsx]) *)

Module SignalComposer.

Import Js.
Local Open Scope eff_scope.

(** A cell of the grid: [None] is [undefined], which a write beyond the
    end of a row leaves behind. *)
Definition Cell : Type := option bool.

Definition Grid : Type := list (list Cell).

Definition ROWS : nat := 6.
Definition COLS : nat := 8.

(** [Array(ROWS).fill(null).map(() => Array(COLS).fill(false))] *)
Definition emptyGrid : Grid := repeat (repeat (Some false) COLS) ROWS.

Definition truthy (c : Cell) : bool :=
  match c with
  | Some b => b
  | None => false
  end.

(** [a[i] = v] on an array: a write beyond the end extends it. *)
Fixpoint assign {A} (a : list (option A)) (i : nat) (v : A)
    : list (option A) :=
  match a, i with
  | [], O => [Some v]
  | [], S i' => None :: assign [] i' v
  | _ :: a', O => Some v :: a'
  | c :: a', S i' => c :: assign a' i' v
  end.

Fixpoint replaceRow (g : Grid) (row : nat) (r : list Cell) : Grid :=
  match g, row with
  | [], _ => []
  | _ :: g', O => r :: g'
  | r0 :: g', S row' => r0 :: replaceRow g' row' r
  end.

(** The setters and sounds of the component. *)
Inductive Update : Type :=
| setGrid (g : Grid)
| setIsPlaying (b : bool)
| setCurrentStep (s : Z)
| setIsTransmitting (b : bool)
| playSound (row : nat).

(** [toggleCell]: spreading a row that is not there throws. *)
Definition toggleCell (grid : Grid) (row col : nat) : Eff Update unit :=
  match nth_error grid row with
  | None => throw TypeError
  | Some r =>
      let cell := match nth_error r col with Some c => c | None => None end in
      let newRow := assign r col (negb (truthy cell)) in
      let newGrid := replaceRow grid row newRow in
      call (setGrid newGrid) ;;;
      if negb (truthy cell) then call (playSound row) else ret tt
  end.

(** [!grid.some(row => row.some(cell => cell))] *)
Definition isEmpty (grid : Grid) : bool :=
  negb (existsb (fun row => existsb truthy row) grid).

(** [handleTransmit]: the setter calls, and the grid given to
    [onTransmit] after the 2000 ms of the animation, if any. *)
Definition handleTransmit (grid : Grid) : Eff Update (option Grid) :=
  if isEmpty grid then ret None
  else
    call (setIsTransmitting true) ;;;
    call (setIsPlaying false) ;;;
    ret (Some grid).

(** [clearGrid] *)
Definition clearGrid : Eff Update unit :=
  call (setGrid emptyGrid) ;;;
  call (setIsPlaying false) ;;;
  call (setCurrentStep (-1)).

(** The step of the sequencer: [(prev + 1) % COLS], the remainder
    taking the sign of the dividend. *)
Definition nextStep (prev : Z) : Z := Z.rem (prev + 1) (Z.of_nat COLS).

End SignalComposer.

(** ** App: broadcasting a signal, and the session *)

Module Broadcast.

Import Js App.
Local Open Scope eff_scope.
Local Open Scope string_scope.

(** [JSON.stringify] on a grid of booleans; [undefined] in an array is
    written [null]. *)
Definition stringifyCell (c : SignalComposer.Cell) : string :=
  match c with
  | Some true => "true"
  | Some false => "false"
  | None => "null"
  end.

Definition stringifyArray (items : list string) : string :=
  "[" ++ String.concat "," items ++ "]".

Definition stringify (grid : SignalComposer.Grid) : string :=
  stringifyArray
    (map (fun row => stringifyArray (map stringifyCell row)) grid).

(** [handleBroadcastSignal] *)
Definition handleBroadcastSignal (currentUser : option User)
    (location : option Coordinates) (now now' : Z)
    (grid : SignalComposer.Grid) : Eff Update unit :=
  let serializedGrid := stringify grid in
  let content := "ENCRYPTED AUDIO SIGNAL [8-BIT SEQUENCE]" in
  let analysis := "Detecting rhythmic pattern. Artificial origin confirmed." in
  handleSaveCapsule currentUser location now now' content analysis
    "Signal Origin Point" None None None (Some serializedGrid) ;;;
  call (setStatusMessage "SIGNAL BROADCAST COMPLETE.").

End Broadcast.

Module Auth.

Local Open Scope string_scope.
Local Open Scope N_scope.

(** A JavaScript string as its code units. *)
Definition CodeUnits : Type := list N.

Definition alphabet : string :=
  "ABCDEFGHIJKLMNOPQRSTUVWXYZabcdefghijklmnopqrstuvwxyz0123456789+/".

Definition digit (n : N) : Ascii.ascii :=
  match String.get (N.to_nat n) alphabet with
  | Some c => c
  | None => Ascii.zero
  end.

(** Base64 of a sequence of bytes. *)
Fixpoint base64 (bytes : list N) : string :=
  match bytes with
  | [] => ""
  | [a] =>
      String (digit (a / 4)) (String (digit (a mod 4 * 16)) "==")
  | [a; b] =>
      String (digit (a / 4))
        (String (digit (a mod 4 * 16 + b / 16))
           (String (digit (b mod 16 * 4)) "="))
  | a :: b :: c :: rest =>
      String (digit (a / 4))
        (String (digit (a mod 4 * 16 + b / 16))
           (String (digit (b mod 16 * 4 + c / 64))
              (String (digit (c mod 64)) (base64 rest))))
  end.

(** [btoa]: it throws on a code unit above 255 ([None]). *)
Definition btoa (s : CodeUnits) : option string :=
  if forallb (fun c => c <=? 255) s then Some (base64 s) else None.

(** A string of code units below 256, as a string of bytes. *)
Definition latin1 (s : CodeUnits) : string :=
  string_of_list_ascii (map Ascii.ascii_of_N s).

(** [loginUser], after its delay: the user it makes and stores as the
    session, when [btoa] does not throw.  The avatar and the bio of a
    user are not modelled. *)
Definition loginUser (username : CodeUnits) : option User :=
  match btoa username with
  | Some encoded =>
      Some (mkUser ("usr_" ++ substring 0 10 encoded) (latin1 username))
  | None => None
  end.

End Auth.

Module Persistence.

Import Js App.
Local Open Scope eff_scope.
Local Open Scope string_scope.

(** The entries of [localStorage] that hold lists of capsules, each as
    the value that [JSON.parse] gives back for it. *)
Definition Storage : Type := string -> option (list Capsule).

(** The component, the stored session and the stored capsules. *)
Record World : Type := mkWorld {
  app : State;
  session : option User;
  data : Storage
}.

Definition storageKey (user : User) : string :=
  "TIMECAPSULE_DATA_" ++ user_id user.

Definition setItem (key : string) (value : list Capsule) (s : Storage)
    : Storage :=
  fun k => if String.eqb k key then Some value else s k.

(** The setter of [currentUser]. *)
Definition setCurrentUser (st : State) (user : option User) : State :=
  mkState user (currentView st) (location st) (isScanning st) (capsules st)
    (nearbyCapsules st) (statusMessage st).

(** The state of the component when it mounts. *)
Definition initial : State :=
  mkState None radar None false [] [] "SYSTEM INITIALIZING...".

(** Effect 2, "Load Data SPECIFIC to the Current User". *)
Definition loadEffect (currentUser : option User) (data : Storage)
    : Eff Update unit :=
  match currentUser with
  | Some user =>
      match data (storageKey user) with
      | Some savedData => call (setCapsules savedData)
      | None => call (setCapsules [])
      end
  | None => ret tt
  end.

(** Effect 3, "Save Data SPECIFIC to the Current User". *)
Definition saveEffect (capsules : list Capsule) (currentUser : option User)
    (data : Storage) : Storage :=
  match currentUser with
  | Some user => setItem (storageKey user) capsules data
  | None => data
  end.

Section WithGeoUtils.

Context `{GeoUtils}.

(** The renders that follow a change of [currentUser]: effects 2 and 3
    run on the values of the first render; the capsules that effect 2
    has set make a second render, after which the nearby effect and
    effect 3 run again. *)
Definition settleUser (w : World) : World :=
  let st := app w in
  let load := loadEffect (currentUser st) (data w) in
  let written := saveEffect (capsules st) (currentUser st) (data w) in
  match calls load with
  | [] => mkWorld st (session w) written
  | _ :: _ =>
      let st' := rerun (commit st load) in
      mkWorld st' (session w)
        (saveEffect (capsules st') (currentUser st') written)
  end.

(** [handleLoginSuccess] and the renders after it. *)
Definition handleLoginSuccess (user : User) (w : World) : World :=
  settleUser (mkWorld (setCurrentUser (app w) (Some user)) (session w)
                (data w)).

(** A login: [loginUser] stores the session and its user is given to
    [handleLoginSuccess]. *)
Definition login (user : User) (w : World) : World :=
  handleLoginSuccess user (mkWorld (app w) (Some user) (data w)).

(** [handleLogout] and the render after it: [logoutUser] removes the
    session; with no user effects 2 and 3 do nothing. *)
Definition handleLogout (w : World) : World :=
  let st :=
    commit (setCurrentUser (app w) None)
      (call (setCapsules []) ;;; call (setCurrentView radar)) in
  mkWorld (rerun st) None (data w).

(** An event of the component and, when it has changed the capsules,
    the write of effect 3 after it. *)
Definition after (w : World) (ev : Event) : World :=
  let st := step (app w) ev in
  match ev with
  | Stored _ | Save (Some _) _ _ _ _ _ _ _ _ _ _ =>
      mkWorld st (session w)
        (saveEffect (capsules st) (currentUser st) (data w))
  | Save None _ _ _ _ _ _ _ _ _ _ | Position _ _ | PositionError
  | Navigate _ =>
      mkWorld st (session w) (data w)
  end.

(** The page is loaded again: effect 1 reads the session. *)
Definition reload (w : World) : World :=
  match session w with
  | Some user =>
      settleUser (mkWorld (setCurrentUser initial (Some user)) (session w)
                    (data w))
  | None => mkWorld initial None (data w)
  end.

(** The nearby capsules agree with the location and the capsules. *)
Definition consistent (st : State) : Prop :=
  match location st with
  | Some loc => nearbyCapsules st = filter (within1km loc) (capsules st)
  | None => nearbyCapsules st = []
  end.

End WithGeoUtils.

End Persistence.

(** ** ProfileView ([components/ProfileView.tsx]): the derived stats *)

Module ProfileView.

Definition myCapsulesCount (user : User) (capsules : list Capsule) : nat :=
  List.length
    (filter (fun c => String.eqb (userId c) (user_id user)) capsules).

(** [Math.min(100, Math.floor(myCapsulesCount * 15 + 12))] *)
Definition synchronicityLevel (myCapsulesCount : nat) : nat :=
  Nat.min 100 (myCapsulesCount * 15 + 12).

Definition xp (myCapsulesCount : nat) : nat := myCapsulesCount * 250.

End ProfileView.

(** ** Sequences of ticks and transformed frames *)

Module Perception.

Import ARView.
Local Open Scope R_scope.

(** The ticks of a sequence of results, one after the other. *)
Definition ticks (env : Surroundings) (st : State) (rs : list Results)
    : State :=
  fold_left (tick env) rs st.

(** A tick that shows one frame of 21 landmarks with 2 or 3 folded
    fingers. *)
Definition ambiguous (r : Results) : Prop :=
  exists frame,
    multiHandLandmarks r = Some [frame]
    /\ List.length frame = 21%nat
    /\ (Spec.foldedCount Spec.planarDistance frame = 2%nat
        \/ Spec.foldedCount Spec.planarDistance frame = 3%nat).

End Perception.

(** ** The other places that read the location *)

(** [formatDistance] of [utils/geoUtils], which the capsule list calls
    on the distance of a row; like the other two functions of the module
    it is not among the files at hand. *)
Class GeoFormat : Type := {
  formatDistance : Js.Num -> string
}.

Module Places.

Import Js App.
Local Open Scope R_scope.

(** [v || 0] for a number that may be missing. *)
Definition orZero (v : option R) : R :=
  match v with
  | Some r => if Req_dec_T r 0 then 0 else r
  | None => 0
  end.

(** [lat] and [lng] of [CreateCapsule.handleSave], the coordinates it
    gives to [analyzeMemory]: [location?.latitude || 0] and
    [location?.longitude || 0]. *)
Definition analysisCoordinates (location : option Coordinates) : R * R :=
  (orZero (option_map latitude location),
   orZero (option_map longitude location)).

(** [fetchLocation] of the effect of [CreateCapsule] on [location]: the
    name it gives to [setLocationName], if it calls it.  The name that
    [identifyLocation] of the Gemini service resolves to is taken as a
    function of the coordinates; [isMounted] is read after the
    [await]. *)
Definition fetchLocation (identifyLocation : R -> R -> string)
    (isMounted : bool) (location : option Coordinates) : option string :=
  match location with
  | Some loc =>
      let name := identifyLocation (latitude loc) (longitude loc) in
      if isMounted then Some name else None
  | None => Some "Unknown Sector (No GPS)"%string
  end.

(** A row of the capsule list: the text of its distance and whether it
    shows the content. *)
Record Row : Type := mkRow {
  shownDistance : string;
  unlocked : bool
}.

(** The body of [capsules.map] in the capsule list. *)
Definition row `{GeoUtils} `{GeoFormat} (currentLocation : option Coordinates)
    (capsule : Capsule) : Row :=
  let distance := CapsuleList.distance currentLocation capsule in
  let isUnlockable := num_ltb distance 50 in
  mkRow (formatDistance distance) isUnlockable.

(** The rows of the capsule list that App renders in the list view, from
    [nearbyCapsules] and [location]; none in another view. *)
Definition listRows `{GeoUtils} `{GeoFormat} (st : State) : list Row :=
  match currentView st with
  | view_capsule => map (row (location st)) (nearbyCapsules st)
  | _ => []
  end.

(** The props of the AR view that App renders: in the AR view and with
    a location only. *)
Definition arViewProps (st : State) : option (list Capsule * Coordinates) :=
  match currentView st, location st with
  | ar_view, Some loc => Some (nearbyCapsules st, loc)
  | _, _ => None
  end.

(** An event of the time before the first fix: no position, and a save
    started in a render of that time, so without a location. *)
Definition fixless (ev : Event) : Prop :=
  match ev with
  | Position _ _ => False
  | Save _ location _ _ _ _ _ _ _ _ _ => location = None
  | _ => True
  end.

End Places.

(** ** Users for the scenarios *)

Module Visitors.

Import App Persistence.
Local Open Scope string_scope.

(** The users that [loginUser] makes for "operator1", "operator22" and
    "stranger". *)
Definition operator1 : User := mkUser "usr_b3BlcmF0b3" "operator1".
Definition operator22 : User := mkUser "usr_b3BlcmF0b3" "operator22".
Definition stranger : User := mkUser "usr_c3RyYW5nZX" "stranger".

(** A text for a distance, for the scenarios. *)
Definition plainFormat : GeoFormat := {|
  formatDistance n :=
    match n with
    | Js.Fin _ => "near"
    | Js.Infinity => "Infinity"
    end
|}.

Definition session1 : World :=
  mkWorld (mkState (Some operator1) create (Some origin) false [] [] "")
    (Some operator1) (fun _ => None).

End Visitors.

(* ================================================================== *)
(** * Part II: properties                                              *)
(* ================================================================== *)

(** ** Comparisons and the effect monad *)

Module JsFacts.

Import Js.
Local Open Scope R_scope.

Lemma ltb_lt (a b : R) : ltb a b = true <-> a < b.
Proof.
  unfold ltb. destruct (Rlt_dec a b); split; intros; try easy.
Qed.

Lemma ltb_ge (a b : R) : ltb a b = false <-> b <= a.
Proof.
  unfold ltb. destruct (Rlt_dec a b); split; intros; try easy; lra.
Qed.

Lemma leb_le (a b : R) : leb a b = true <-> a <= b.
Proof.
  unfold leb. destruct (Rle_dec a b); split; intros; try easy.
Qed.

Lemma leb_gt (a b : R) : leb a b = false <-> b < a.
Proof.
  unfold leb. destruct (Rle_dec a b); split; intros; try easy; lra.
Qed.

(** A square root known by its square. *)
Lemma sqrt_is (a r : R) : 0 <= r -> r * r = a -> sqrt a = r.
Proof.
  intros Hr <-. apply sqrt_square, Hr.
Qed.

End JsFacts.

(** ** The gesture classifier *)

Module GestureFacts.

Import Js JsFacts ARView.
Local Open Scope R_scope.

Lemma distToWrist_defined (p w : Landmark) :
  distToWrist (Some p) (Some w) = ret (Spec.planarDistance p w).
Proof. reflexivity. Qed.

(** A frame with more than [i] landmarks has landmark [i]. *)
Lemma landmark_defined (frame : list Landmark) (i : nat) :
  (i < List.length frame)%nat ->
  nth_error frame i = Some (Spec.landmark frame i).
Proof.
  intros Hi. unfold Spec.landmark. apply nth_error_nth'. exact Hi.
Qed.

Lemma landmark_undefined (frame : list Landmark) (i : nat) :
  (List.length frame <= i)%nat -> nth_error frame i = None.
Proof. apply nth_error_None. Qed.

(** The counter of the code is the count of the specification taken
    with the distance on the image plane. *)
Lemma foldedFingers_planar (frame : list Landmark) :
  (20 < List.length frame)%nat ->
  foldedFingers frame = ret (Spec.foldedCount Spec.planarDistance frame).
Proof.
  intros Hlen. unfold foldedFingers, tips, countTips, countTip.
  rewrite !landmark_defined by lia.
  rewrite !distToWrist_defined.
  unfold Spec.foldedCount, Spec.foldedb, Spec.palmSize, bind, ret.
  cbn [filter].
  repeat match goal with
         | |- context [ltb ?a ?b] => destruct (ltb a b)
         end; reflexivity.
Qed.

Lemma newState_classification (n : nat) :
  newState n =
  match Spec.classification n with
  | Spec.IsClosed => CLOSED
  | Spec.IsOpen => OPEN
  | Spec.Ambiguous => NONE
  end.
Proof.
  unfold newState, Spec.classification.
  destruct (4 <=? n)%nat; [reflexivity|]. destruct (n <=? 1)%nat; reflexivity.
Qed.

Lemma classification_cases (n : nat) :
  ((4 <= n)%nat -> Spec.classification n = Spec.IsClosed)
  /\ ((n <= 1)%nat -> Spec.classification n = Spec.IsOpen)
  /\ (n = 2%nat \/ n = 3%nat -> Spec.classification n = Spec.Ambiguous).
Proof.
  unfold Spec.classification. repeat split; intros Hn.
  - apply Nat.leb_le in Hn. now rewrite Hn.
  - destruct (Nat.leb_spec 4 n); [lia|]. apply Nat.leb_le in Hn. now rewrite Hn.
  - destruct Hn; subst; reflexivity.
Qed.

Lemma detectGesture_planar (h : Gesture) (frame : list Landmark) :
  (20 < List.length frame)%nat ->
  detectGesture h frame =
  let g := newState (Spec.foldedCount Spec.planarDistance frame) in
  if negb (Gesture_eqb g NONE) && negb (Gesture_eqb g h)
  then call (setHandGesture g) else ret tt.
Proof.
  intros Hlen. unfold detectGesture. rewrite (foldedFingers_planar _ Hlen).
  unfold bind, ret. cbn zeta.
  destruct (negb _ && negb _); reflexivity.
Qed.

End GestureFacts.

(** ** The classifier on the scenarios, and the claims about it *)

Module Gesture.

Import Js JsFacts ARView GestureFacts.
Local Open Scope R_scope.

Lemma planar_value (p q : Landmark) (r : R) :
  0 <= r -> r * r = (x p - x q) ^ 2 + (y p - y q) ^ 2 ->
  Spec.planarDistance p q = r.
Proof. intros Hr E. apply sqrt_is; [exact Hr | exact E]. Qed.

Lemma euclidean_value (p q : Landmark) (r : R) :
  0 <= r -> r * r = (x p - x q) ^ 2 + (y p - y q) ^ 2 + (z p - z q) ^ 2 ->
  Spec.euclideanDistance p q = r.
Proof. intros Hr E. apply sqrt_is; [exact Hr | exact E]. Qed.

(** Decide the comparisons of a goal whose distances are numerals. *)
Ltac compare_numbers :=
  repeat match goal with
         | |- context [ltb ?a ?b] =>
             first [ replace (ltb a b) with true
                       by (symmetry; apply ltb_lt; lra)
                   | replace (ltb a b) with false
                       by (symmetry; apply ltb_ge; lra) ]
         end.

Import Scenario.

Lemma knuckle0_wrist0 : Spec.planarDistance knuckle0 wrist0 = 0.3.
Proof. apply planar_value; simpl; lra. Qed.

Lemma stretched_wrist0 : Spec.planarDistance stretched wrist0 = 0.8.
Proof. apply planar_value; simpl; lra. Qed.

Lemma curled_wrist0 : Spec.planarDistance curled wrist0 = 0.4.
Proof. apply planar_value; simpl; lra. Qed.

Lemma thumbOut_wrist0 : Spec.planarDistance thumbOut wrist0 = 0.5.
Proof. apply planar_value; simpl; lra. Qed.

Lemma thumbIn_wrist0 : Spec.planarDistance thumbIn wrist0 = 0.3.
Proof. apply planar_value; simpl; lra. Qed.

Lemma behind_wrist0 : Spec.planarDistance behind wrist0 = 0.3.
Proof. apply planar_value; simpl; lra. Qed.

Lemma behind_wrist0_in_space : Spec.euclideanDistance behind wrist0 = 0.5.
Proof. apply euclidean_value; simpl; lra. Qed.

Lemma knuckle0_wrist0_in_space : Spec.euclideanDistance knuckle0 wrist0 = 0.3.
Proof. apply euclidean_value; simpl; lra. Qed.

Ltac count_scenario :=
  unfold Spec.foldedCount, Spec.foldedb, Spec.palmSize, Spec.landmark;
  cbn [nth frame openPalm fist twoFingers pointingAtCamera filter];
  rewrite ?knuckle0_wrist0, ?stretched_wrist0, ?curled_wrist0,
    ?thumbOut_wrist0, ?thumbIn_wrist0, ?behind_wrist0,
    ?behind_wrist0_in_space, ?knuckle0_wrist0_in_space;
  compare_numbers; reflexivity.

Lemma openPalm_count :
  Spec.foldedCount Spec.planarDistance openPalm = 0%nat.
Proof. count_scenario. Qed.

Lemma fist_count : Spec.foldedCount Spec.planarDistance fist = 5%nat.
Proof. count_scenario. Qed.

Lemma twoFingers_count :
  Spec.foldedCount Spec.planarDistance twoFingers = 2%nat.
Proof. count_scenario. Qed.

(** Section 8: five folded fingers close, none opens, two after OPEN
    keep OPEN. *)
Lemma fist_closes_and_palm_opens :
  calls (detectGesture NONE fist) = [setHandGesture CLOSED]
  /\ calls (detectGesture NONE openPalm) = [setHandGesture OPEN]
  /\ calls (detectGesture OPEN twoFingers) = [].
Proof.
  rewrite !detectGesture_planar by (simpl; lia).
  rewrite fist_count, openPalm_count, twoFingers_count. repeat split.
Qed.

Lemma pointingAtCamera_count :
  Spec.foldedCount Spec.planarDistance pointingAtCamera = 5%nat.
Proof. count_scenario. Qed.

Lemma pointingAtCamera_count_in_space :
  Spec.foldedCount Spec.euclideanDistance pointingAtCamera = 0%nat.
Proof. count_scenario. Qed.

(** *** The classifier makes no setter call before "Determine State" *)

Lemma bind_silent {U A B} (m : Eff U A) (k : A -> Eff U B) :
  calls m = [] -> (forall a, calls (k a) = []) -> calls (bind m k) = [].
Proof.
  destruct m as [us [a|e]]; simpl; intros -> Hk; [|reflexivity].
  specialize (Hk a). destruct (k a) as [us' r]. simpl in *. exact Hk.
Qed.

Lemma prop_silent (f : Landmark -> R) (lm : option Landmark) :
  calls (prop f lm) = [].
Proof. destruct lm; reflexivity. Qed.

Lemma distToWrist_silent (p w : option Landmark) :
  calls (distToWrist p w) = [].
Proof.
  unfold distToWrist.
  repeat (apply bind_silent; [apply prop_silent | intros ?]). reflexivity.
Qed.

Lemma countTips_silent (frame : list Landmark) (w : option Landmark)
    (palm : R) (idxs : list nat) (n : nat) :
  calls (countTips frame w palm idxs n) = [].
Proof.
  revert n. induction idxs as [|i idxs IH]; intros n; [reflexivity|].
  cbn [countTips]. apply bind_silent; [|intros ?; apply IH].
  unfold countTip. apply bind_silent; [apply distToWrist_silent|].
  intros ?. reflexivity.
Qed.

Lemma foldedFingers_silent (frame : list Landmark) :
  calls (foldedFingers frame) = [].
Proof.
  unfold foldedFingers.
  apply bind_silent; [apply distToWrist_silent | intros ?].
  apply bind_silent; [apply countTips_silent | intros ?].
  apply bind_silent; [apply distToWrist_silent | intros ?]. reflexivity.
Qed.


Lemma foldedFingers_throws (frame : list Landmark) (e : Error) :
  outcome (foldedFingers frame) = Throw e ->
  forall h, detectGesture h frame = ([], Throw e).
Proof.
  intros E h. pose proof (foldedFingers_silent frame) as S.
  unfold detectGesture.
  destruct (foldedFingers frame) as [us r]. simpl in *. subst.
  reflexivity.
Qed.

(** A frame that lacks landmark 20 cannot be classified. *)
Lemma foldedFingers_short (frame : list Landmark) :
  (List.length frame <= 20)%nat -> foldedFingers frame = throw TypeError.
Proof.
  intros Hlen. unfold foldedFingers, tips, countTips, countTip.
  rewrite (landmark_undefined frame 20) by lia.
  destruct (nth_error frame 0), (nth_error frame 9), (nth_error frame 8),
    (nth_error frame 12), (nth_error frame 16);
    cbn; repeat match goal with
                | |- context [ltb ?a ?b] => destruct (ltb a b)
                end; reflexivity.
Qed.

(** Landmarks beyond index 20 are not read. *)
Lemma foldedCount_prefix (dist : Landmark -> Landmark -> R)
    (frame extra : list Landmark) :
  List.length frame = 21%nat ->
  Spec.foldedCount dist (frame ++ extra) = Spec.foldedCount dist frame.
Proof.
  intros Hlen.
  unfold Spec.foldedCount, Spec.foldedb, Spec.palmSize, Spec.landmark.
  cbn [filter]. rewrite !app_nth1 by lia. reflexivity.
Qed.

(** *** Claims *)

(** C1, as amended.  For every frame of 21 landmarks the classifier
    returns with the count of the specification taken with the distance
    on the image plane (the [x] and [y] of a landmark; [z] is not read):
    [palmSize] is that distance from the wrist (index 0) to the knuckle
    (index 9), a fingertip (8, 12, 16, 20) counts as folded exactly when
    its distance to the wrist is below [palmSize * 1.6], the thumb tip
    (4) exactly when it is below [palmSize * 1.3]; the frame is CLOSED
    for a count of 4 or more, OPEN for a count of at most 1, and has no
    definitive state for 2 or 3. *)
Theorem classifier_counts_on_the_image_plane (frame : list Landmark) :
  List.length frame = 21%nat ->
  let n := Spec.foldedCount Spec.planarDistance frame in
  foldedFingers frame = ret n
  /\ (forall i k,
        Spec.foldedb Spec.planarDistance frame i k = true
        <-> Spec.folded Spec.planarDistance frame i k)
  /\ (forall h,
        detectGesture h frame =
        if negb (Gesture_eqb (newState n) NONE)
           && negb (Gesture_eqb (newState n) h)
        then call (setHandGesture (newState n)) else ret tt)
  /\ ((4 <= n)%nat -> newState n = CLOSED)
  /\ ((n <= 1)%nat -> newState n = OPEN)
  /\ (n = 2%nat \/ n = 3%nat -> newState n = NONE).
Proof.
  intros Hlen n.
  assert (Hlong : (20 < List.length frame)%nat) by lia.
  split; [exact (foldedFingers_planar frame Hlong)|].
  split; [intros i k; apply ltb_lt|].
  split; [intros h; exact (detectGesture_planar h frame Hlong)|].
  rewrite newState_classification.
  destruct (classification_cases n) as (Hc & Ho & Ha).
  repeat split; intros Hn.
  - now rewrite (Hc Hn).
  - now rewrite (Ho Hn).
  - now rewrite (Ha Hn).
Qed.

Lemma classifier_counts_on_the_image_plane_witness :
  foldedFingers openPalm
  = ret (Spec.foldedCount Spec.planarDistance openPalm).
Proof.
  exact (proj1 (classifier_counts_on_the_image_plane openPalm eq_refl)).
Defined.

(** C1 as stated fails for the euclidean distance of the 3D points of a
    frame: with every tip right behind the knuckle the code counts five
    folded fingers and reports CLOSED, while no tip is within the
    threshold of the wrist in space, which is an OPEN hand. *)
Lemma classifier_ignores_depth :
  List.length pointingAtCamera = 21%nat
  /\ foldedFingers pointingAtCamera = ret 5%nat
  /\ calls (detectGesture NONE pointingAtCamera) = [setHandGesture CLOSED]
  /\ Spec.foldedCount Spec.euclideanDistance pointingAtCamera = 0%nat
  /\ ~ Spec.folded Spec.euclideanDistance pointingAtCamera 8 1.6
  /\ Spec.classification 0 = Spec.IsOpen.
Proof.
  assert (Hlong : (20 < List.length pointingAtCamera)%nat) by (simpl; lia).
  split; [reflexivity|].
  split; [rewrite (foldedFingers_planar _ Hlong), pointingAtCamera_count;
          reflexivity|].
  split; [rewrite (detectGesture_planar _ _ Hlong), pointingAtCamera_count;
          reflexivity|].
  split; [exact pointingAtCamera_count_in_space|].
  split; [|reflexivity].
  unfold Spec.folded, Spec.palmSize, Spec.landmark.
  cbn [nth frame pointingAtCamera].
  rewrite behind_wrist0_in_space, knuckle0_wrist0_in_space. lra.
Qed.



(** C3, as amended.  With the overlay canvas and its context at hand, a
    tick without a hand ([multiHandLandmarks] missing or empty) returns
    and leaves the gesture NONE and the hand undetected, whatever the
    state was.  A frame with a wrong number of landmarks is not taken
    for "no hand": with fewer than 21 the classifier throws and the
    gesture keeps its value; landmarks beyond the 21st are not read. *)
Theorem no_hand_resets_the_gesture (env : Surroundings) (st : State)
    (h : Gesture) (results : Results) :
  handCanvas env = true ->
  context2d env = true ->
  let run := onResults env h results in
  (multiHandLandmarks results = None \/ multiHandLandmarks results = Some [] ->
   outcome run = Ok tt
   /\ handGesture (commit st run) = NONE
   /\ handDetected (commit st run) = false)
  /\ (forall frame others,
        multiHandLandmarks results = Some (frame :: others) ->
        (List.length frame <= 20)%nat ->
        outcome run = Throw TypeError
        /\ handGesture (commit st run) = handGesture st)
  /\ (forall frame extra,
        List.length frame = 21%nat ->
        detectGesture h (frame ++ extra) = detectGesture h frame).
Proof.
  intros Hcanvas Hctx run. subst run. unfold onResults.
  rewrite Hcanvas, Hctx. cbn [negb].
  split; [|split].
  - intros [-> | ->]; destruct (streamActive env); repeat split.
  - intros frame others -> Hshort. cbn [forEach].
    assert (E : detectGesture h frame = ([], Throw TypeError)).
    { apply foldedFingers_throws.
      rewrite (foldedFingers_short frame Hshort). reflexivity. }
    rewrite E. split; reflexivity.
  - intros frame extra Hlen.
    rewrite !detectGesture_planar by (rewrite ?length_app; lia).
    rewrite foldedCount_prefix by exact Hlen. reflexivity.
Qed.

Lemma no_hand_resets_the_gesture_witness :
  handGesture
    (commit (showing OPEN) (onResults mounted OPEN (mkResults None)))
  = NONE.
Proof.
  exact (proj1 (proj2 (proj1 (no_hand_resets_the_gesture mounted
                                (showing OPEN) OPEN (mkResults None)
                                eq_refl eq_refl) (or_introl eq_refl)))).
Defined.

(** C3 as stated fails on frames with a wrong number of landmarks: a
    frame of one landmark makes the callback throw and leaves the
    gesture OPEN; a frame of 22 landmarks is classified, here as OPEN. *)
Lemma malformed_frame_is_not_no_hand :
  List.length wristOnly <> 21%nat
  /\ outcome (onResults mounted OPEN (mkResults (Some [wristOnly])))
     = Throw TypeError
  /\ handGesture (tick mounted (showing OPEN) (mkResults (Some [wristOnly])))
     = OPEN
  /\ List.length overlong <> 21%nat
  /\ handGesture (tick mounted (showing CLOSED) (mkResults (Some [overlong])))
     = OPEN.
Proof.
  split; [simpl; lia|].
  split; [reflexivity|].
  split; [reflexivity|].
  split; [simpl; lia|].
  unfold tick, onResults, overlong. cbn [mounted handCanvas context2d negb
    multiHandLandmarks forEach handGesture showing].
  rewrite detectGesture_planar by (simpl; lia).
  rewrite foldedCount_prefix by reflexivity.
  rewrite openPalm_count. reflexivity.
Qed.

End Gesture.

(** ** Selection of the nearest capsule *)

Module Selection.

Import Js JsFacts ARView.
Local Open Scope R_scope.

Section Sorting.

Context {A : Type}.
Variable key : A -> R.

Lemma first_least_lower_bound (l : list A) (c e : A) :
  Spec.firstLeast key l c -> In e l -> key c <= key e.
Proof.
  intros (before & after & -> & Hb & Ha) Hin.
  apply in_app_or in Hin. destruct Hin as [Hin|[<-|Hin]].
  - apply Rlt_le, Hb, Hin.
  - apply Rle_refl.
  - apply Ha, Hin.
Qed.

Lemma first_least_unique (l : list A) (c c' : A) :
  Spec.firstLeast key l c -> Spec.firstLeast key l c' -> c = c'.
Proof.
  intros (b1 & a1 & E1 & Hb1 & Ha1) (b2 & a2 & E2 & Hb2 & Ha2).
  rewrite E1 in E2. clear E1. revert b2 E2 Hb1 Hb2.
  induction b1 as [|u b1 IH]; intros [|v b2] E2 Hb1 Hb2; cbn in E2.
  - now inversion E2.
  - inversion E2; subst.
    assert (key c' <= key v).
    { apply Rlt_le, Hb2. now left. }
    assert (key v <= key c').
    { apply Ha1. apply in_or_app. right. now left. }
    assert (key c' < key v) by (apply Hb2; now left). lra.
  - inversion E2; subst.
    assert (key c < key c') by (apply Hb1; now left).
    assert (key c' <= key c).
    { apply Ha2. apply in_or_app. right. now left. }
    lra.
  - inversion E2; subst. apply (IH b2); [assumption| |].
    + intros e He. apply Hb1. now right.
    + intros e He. apply Hb2. now right.
Qed.

Lemma sort_insert_head (a : A) (s : list A) :
  nth_error (sort_insert (fun u v => key u - key v) a s) 0 =
  match s with
  | [] => Some a
  | b :: _ => if ltb 0 (key a - key b) then Some b else Some a
  end.
Proof.
  destruct s as [|b s]; [reflexivity|]. cbn [sort_insert].
  destruct (ltb 0 (key a - key b)); reflexivity.
Qed.

(** The head of the sorted copy is the first least element. *)
Lemma sort_head (l : list A) :
  l <> [] ->
  exists c,
    nth_error (sort (fun u v => key u - key v) l) 0 = Some c
    /\ Spec.firstLeast key l c.
Proof.
  induction l as [|a l IH]; [congruence|]. intros _.
  unfold sort. cbn [fold_right]. fold (sort (fun u v => key u - key v) l).
  rewrite sort_insert_head.
  destruct l as [|a' l].
  - cbn. exists a. split; [reflexivity|].
    exists [], []. repeat split; intros e [].
  - destruct IH as (b & Hb & Hleast); [congruence|].
    destruct (sort _ (a' :: l)) as [|b' s] eqn:Es; [discriminate|].
    cbn in Hb. inversion Hb; subst b'.
    destruct (ltb 0 (key a - key b)) eqn:Hcmp.
    + apply ltb_lt in Hcmp.
      exists b. split; [reflexivity|].
      destruct Hleast as (before & after & E & Hbefore & Hafter).
      exists (a :: before), after. rewrite E. split; [reflexivity|].
      split; [|exact Hafter].
      intros e [<-|He]; [lra|apply Hbefore, He].
    + apply ltb_ge in Hcmp.
      exists a. split; [reflexivity|].
      exists [], (a' :: l). split; [reflexivity|].
      split; [intros e []|].
      intros e He. pose proof (first_least_lower_bound _ _ _ Hleast He). lra.
Qed.

End Sorting.

Section WithGeoUtils.

Context `{GeoUtils}.

(** C4.  With the gesture OPEN, no capsule selected and at least one
    capsule nearby, the effect selects a capsule of least distance from
    the user, and among several of them the first in the order of the
    list; there is exactly one such capsule. *)
Theorem open_hand_selects_the_nearest (st : State)
    (capsules : list Capsule) (userLocation : Coordinates) :
  handGesture st = OPEN ->
  selectedCapsule st = None ->
  capsules <> [] ->
  let distance c := calculateDistance userLocation (coordinates c) in
  let run :=
    interactionEffect (handGesture st) capsules userLocation
      (selectedCapsule st) in
  exists c,
    calls run = [setSelectedCapsule (Some c)]
    /\ selectedCapsule (commit st run) = Some c
    /\ Spec.firstLeast distance capsules c
    /\ (forall e, In e capsules -> distance c <= distance e)
    /\ (forall c', Spec.firstLeast distance capsules c' -> c' = c).
Proof.
  intros Hopen Hnone Hsome distance run. subst run.
  rewrite Hopen, Hnone. unfold interactionEffect.
  cbn [Gesture_eqb negb andb].
  destruct capsules as [|c0 rest] eqn:Ecaps; [congruence|].
  cbn [List.length Nat.ltb Nat.leb]. rewrite <- Ecaps.
  destruct (sort_head distance capsules) as (c & Hhead & Hleast);
    [congruence|].
  exists c.
  change (byDistance userLocation) with (fun u v => distance u - distance v).
  rewrite Hhead.
  split; [reflexivity|]. split; [reflexivity|]. split; [exact Hleast|].
  split.
  - intros e He. exact (first_least_lower_bound distance _ _ _ Hleast He).
  - intros c' Hc'. exact (first_least_unique distance _ _ _ Hc' Hleast).
Qed.

End WithGeoUtils.

Import Scenario.

Lemma meridian_distance (lat : R) (name : string) :
  0 <= lat ->
  @calculateDistance meridian origin (coordinates (capsuleAt name lat)) = lat.
Proof.
  intros Hlat. cbn. rewrite Rminus_0_r. apply Rabs_pos_eq, Hlat.
Qed.

(** Scenario B, with a second capsule at 10 m behind the first. *)
Lemma open_hand_selects_the_nearest_witness :
  selectedCapsule
    (commit (showing OPEN)
       (@interactionEffect meridian OPEN
          [capsuleAt "far" 30; capsuleAt "near" 10; capsuleAt "tie" 10]
          origin None))
  = Some (capsuleAt "near" 10).
Proof.
  destruct (@open_hand_selects_the_nearest meridian (showing OPEN)
              [capsuleAt "far" 30; capsuleAt "near" 10; capsuleAt "tie" 10]
              origin eq_refl eq_refl
              ltac:(discriminate))
    as (c & _ & Hsel & _ & _ & Hunique).
  cbn [showing handGesture selectedCapsule] in Hsel. rewrite Hsel.
  f_equal. symmetry. apply Hunique.
  exists [capsuleAt "far" 30], [capsuleAt "tie" 10].
  split; [reflexivity|].
  split; intros e [<-|[]]; rewrite !meridian_distance by lra; lra.
Defined.

End Selection.

(** ** The radar: nearby capsules and the scan *)

Module Radar.

Import Js JsFacts App.
Local Open Scope R_scope.
Local Open Scope string_scope.

(** What the timeout of a scan reports for the capsules it has read. *)
Lemma scanTimeout_calls (nearby : list Capsule) :
  scanTimeout nearby =
  match nearby with
  | [] =>
      ([setIsScanning false; setStatusMessage "NO TRACES FOUND IN SECTOR."],
       Ok tt)
  | _ :: _ =>
      ([setIsScanning false;
        setStatusMessage
          (string_of_length (List.length nearby)
           ++ " SIGNALS DETECTED. ENGAGING HUD.");
        setCurrentView ar_view],
       Ok tt)
  end.
Proof. destruct nearby; reflexivity. Qed.

Lemma handleScan_timeout (location : option Coordinates)
    (nearby : list Capsule) :
  outcome (handleScan location nearby)
  = Ok (mkTimeout (scanTimeout nearby) 2000).
Proof. destruct location; reflexivity. Qed.

Lemma handleScan_starts (location : option Coordinates)
    (nearby : list Capsule) (st : State) :
  isScanning (commit st (handleScan location nearby)) = true.
Proof. destruct location; reflexivity. Qed.

(** C5.  A scan trigger sets the scanning flag and one timeout of 2000
    ms.  Whatever the state is when the timeout runs, the flag is then
    cleared; when the capsules read at the trigger are not empty the
    status reports their number as detected signals and the view becomes
    the AR view; when they are empty the status reports no traces and
    the view stays what it was. *)
Theorem scan_reports_and_returns_to_idle (location : option Coordinates)
    (nearby : list Capsule) :
  exists timeout,
    outcome (handleScan location nearby) = Ok timeout
    /\ delay timeout = 2000%Z
    /\ (forall st, isScanning (commit st (handleScan location nearby)) = true)
    /\ forall st,
         let st' := commit st (callback timeout) in
         outcome (callback timeout) = Ok tt
         /\ isScanning st' = false
         /\ (nearby <> [] ->
             statusMessage st'
             = string_of_length (List.length nearby)
               ++ " SIGNALS DETECTED. ENGAGING HUD."
             /\ currentView st' = ar_view)
         /\ (nearby = [] ->
             statusMessage st' = "NO TRACES FOUND IN SECTOR."
             /\ currentView st' = currentView st).
Proof.
  exists (mkTimeout (scanTimeout nearby) 2000).
  split; [apply handleScan_timeout|]. split; [reflexivity|].
  split; [intros st; apply handleScan_starts|].
  intros st. cbn [callback]. rewrite scanTimeout_calls.
  destruct nearby as [|c nearby]; cbn.
  - repeat split; congruence.
  - repeat split; congruence.
Qed.

Section WithGeoUtils.

Context `{GeoUtils}.

(** The events of the window leave the timeout of the scan alone: the
    report is that of the capsules read at the trigger. *)
Lemma scan_is_timeout_after_window (st : State) (window : list Event) :
  scan st window
  = commit (fold_left step window
              (commit st (handleScan (location st) (nearbyCapsules st))))
      (scanTimeout (nearbyCapsules st)).
Proof.
  unfold scan. rewrite handleScan_timeout. reflexivity.
Qed.

(** C10.  Two scans triggered on equal nearby capsules report the same:
    the timeouts make the same setter calls, the status after them is
    the same and tells the number read at the trigger, and both end in
    the AR view or both leave the view as the window left it, whatever
    positions, stored or saved capsules and navigation arrived in the
    two windows, and whatever the states are when the timeouts run. *)
Theorem scan_outcome_is_fixed_at_the_trigger (st1 st2 : State)
    (window1 window2 : list Event) :
  nearbyCapsules st1 = nearbyCapsules st2 ->
  let before1 :=
    fold_left step window1
      (commit st1 (handleScan (location st1) (nearbyCapsules st1))) in
  let before2 :=
    fold_left step window2
      (commit st2 (handleScan (location st2) (nearbyCapsules st2))) in
  (exists t1 t2,
     outcome (handleScan (location st1) (nearbyCapsules st1)) = Ok t1
     /\ outcome (handleScan (location st2) (nearbyCapsules st2)) = Ok t2
     /\ callback t1 = callback t2
     /\ forall s1 s2,
          statusMessage (commit s1 (callback t1))
          = statusMessage (commit s2 (callback t2)))
  /\ statusMessage (scan st1 window1) = statusMessage (scan st2 window2)
  /\ statusMessage (scan st1 window1)
     = (if (0 <? List.length (nearbyCapsules st1))%nat
        then string_of_length (List.length (nearbyCapsules st1))
             ++ " SIGNALS DETECTED. ENGAGING HUD."
        else "NO TRACES FOUND IN SECTOR.")
  /\ isScanning (scan st1 window1) = isScanning (scan st2 window2)
  /\ ((currentView (scan st1 window1) = ar_view
       /\ currentView (scan st2 window2) = ar_view
       /\ nearbyCapsules st1 <> [])
      \/ (currentView (scan st1 window1) = currentView before1
          /\ currentView (scan st2 window2) = currentView before2
          /\ nearbyCapsules st1 = [])).
Proof.
  intros Enear before1 before2.
  rewrite !scan_is_timeout_after_window. fold before1 before2.
  rewrite <- Enear. split.
  - exists (mkTimeout (scanTimeout (nearbyCapsules st1)) 2000),
      (mkTimeout (scanTimeout (nearbyCapsules st1)) 2000).
    rewrite !handleScan_timeout. repeat split.
    intros s1 s2. cbn [callback]. rewrite scanTimeout_calls.
    destruct (nearbyCapsules st1); reflexivity.
  - rewrite scanTimeout_calls.
    destruct (nearbyCapsules st1) as [|c l]; cbn.
    + repeat split. right. repeat split.
    + repeat split. left. repeat split. congruence.
Qed.

(** C8.  With a user location, the nearby capsules set by the effect
    are exactly the capsules at a distance of at most 1000 m, in the
    order of the list, a capsule at 1000 m included; the effect computes
    them anew from the location and the list alone, after a position,
    after stored capsules are loaded and after a capsule is saved,
    whichever render the save was started in. *)
Theorem nearby_is_within_1000_meters (st : State) (loc : Coordinates) :
  location st = Some loc ->
  let distance c := calculateDistance loc (coordinates c) in
  nearbyCapsules (rerun st) = filter (within1km loc) (capsules st)
  /\ (forall c,
        In c (nearbyCapsules (rerun st))
        <-> In c (capsules st) /\ distance c <= 1000)
  /\ (forall c,
        In c (capsules st) -> distance c = 1000 ->
        In c (nearbyCapsules (rerun st)))
  /\ (forall stale,
        nearbyCapsules (rerun (apply st (setNearbyCapsules stale)))
        = nearbyCapsules (rerun st))
  /\ (forall lat lon,
        nearbyCapsules (step st (Position lat lon))
        = filter (within1km (mkCoordinates lat lon)) (capsules st))
  /\ (forall saved,
        nearbyCapsules (step st (Stored saved))
        = filter (within1km loc) saved)
  /\ (forall user started now now' content aiAnalysis locationName image
        video audio signalData,
        user <> None ->
        exists newCapsule,
          coordinates newCapsule
          = match started with Some l => l | None => origin end
          /\ nearbyCapsules
               (step st (Save user started now now' content aiAnalysis
                           locationName image video audio signalData))
             = filter (within1km loc) (capsules st ++ [newCapsule])).
Proof.
  intros Hloc distance.
  assert (Hmem : forall c,
             In c (filter (within1km loc) (capsules st))
             <-> In c (capsules st) /\ distance c <= 1000).
  { intros c. rewrite filter_In. unfold within1km. rewrite leb_le.
    reflexivity. }
  assert (Hrerun : nearbyCapsules (rerun st)
                   = filter (within1km loc) (capsules st)).
  { unfold rerun. rewrite Hloc. reflexivity. }
  split; [exact Hrerun|]. rewrite Hrerun.
  split; [exact Hmem|].
  split; [intros c Hin Hd; apply Hmem; split; [exact Hin|lra]|].
  split; [intros stale; unfold rerun; cbn; rewrite Hloc; reflexivity|].
  split; [reflexivity|].
  split; [intros saved; unfold step, rerun; cbn; rewrite Hloc; reflexivity|].
  intros user started now now' content aiAnalysis locationName image video
    audio signalData Huser.
  unfold step, rerun. destruct user as [user|]; [|congruence].
  cbn. rewrite Hloc. cbn.
  eexists. split; [|reflexivity]. destruct started; reflexivity.
Qed.

End WithGeoUtils.

Import Scenario.

Lemma nearby_is_within_1000_meters_witness :
  nearbyCapsules
    (@rerun meridian (idle [capsuleAt "edge" 1000; capsuleAt "out" 1001]))
  = filter (@within1km meridian origin)
      [capsuleAt "edge" 1000; capsuleAt "out" 1001].
Proof.
  exact (proj1 (@nearby_is_within_1000_meters meridian
                  (idle [capsuleAt "edge" 1000; capsuleAt "out" 1001])
                  origin eq_refl)).
Defined.

(** The capsule at 1000 m is nearby, the one at 1001 m is not. *)
Lemma nearby_at_the_boundary :
  filter (@within1km meridian origin)
    [capsuleAt "edge" 1000; capsuleAt "out" 1001]
  = [capsuleAt "edge" 1000].
Proof.
  cbn [filter]. unfold within1km.
  rewrite !Selection.meridian_distance by lra.
  replace (leb 1000 1000) with true by (symmetry; apply leb_le; lra).
  replace (leb 1001 1000) with false by (symmetry; apply leb_gt; lra).
  reflexivity.
Qed.

(** The scan workflow of section 8: no capsule nearby, and three. *)
Lemma scan_reports_and_returns_to_idle_witness :
  (statusMessage (commit (idle []) (scanTimeout []))
   = "NO TRACES FOUND IN SECTOR."
   /\ currentView (commit (idle []) (scanTimeout [])) = radar)
  /\ (statusMessage
        (commit (idle [])
           (scanTimeout
              [capsuleAt "a" 10; capsuleAt "b" 20; capsuleAt "c" 30]))
      = "3 SIGNALS DETECTED. ENGAGING HUD."
      /\ currentView
           (commit (idle [])
              (scanTimeout
                 [capsuleAt "a" 10; capsuleAt "b" 20; capsuleAt "c" 30]))
         = ar_view).
Proof.
  split.
  - destruct (scan_reports_and_returns_to_idle (Some origin) [])
      as (timeout & Etimeout & _ & _ & Hfire).
    rewrite handleScan_timeout in Etimeout. inversion Etimeout; subst.
    exact (proj2 (proj2 (proj2 (Hfire (idle [])))) eq_refl).
  - destruct (scan_reports_and_returns_to_idle (Some origin)
                [capsuleAt "a" 10; capsuleAt "b" 20; capsuleAt "c" 30])
      as (timeout & Etimeout & _ & _ & Hfire).
    rewrite handleScan_timeout in Etimeout. inversion Etimeout; subst.
    exact (proj1 (proj2 (proj2 (Hfire (idle []))))
             ltac:(discriminate)).
Defined.

Lemma scan_outcome_is_fixed_at_the_trigger_witness :
  statusMessage
    (@scan meridian (idle [capsuleAt "near" 10])
       [Position 5000 0; Stored []; Navigate create])
  = statusMessage
      (@scan meridian
         (mkState None view_capsule None false [] [capsuleAt "near" 10] "")
         [PositionError]).
Proof.
  exact (proj1 (proj2 (@scan_outcome_is_fixed_at_the_trigger meridian
                         (idle [capsuleAt "near" 10])
                         (mkState None view_capsule None false []
                            [capsuleAt "near" 10] "")
                         [Position 5000 0; Stored []; Navigate create]
                         [PositionError] eq_refl))).
Defined.

End Radar.

(** ** Projection, the proximity gate and the missing fix *)

Module Anchoring.

Import Js JsFacts.
Local Open Scope R_scope.
Local Open Scope string_scope.

Lemma max_min_is_clamp (v : R) : Rmax 5 (Rmin v 50) = Spec.clamp v 5 50.
Proof.
  unfold Spec.clamp, Rmax, Rmin.
  destruct (Rlt_dec v 5), (Rlt_dec 50 v), (Rle_dec v 50);
    try lra; destruct (Rle_dec 5 _); lra.
Qed.

Lemma clamp_bounds (v : R) : 5 <= Spec.clamp v 5 50 <= 50.
Proof.
  unfold Spec.clamp. destruct (Rlt_dec v 5), (Rlt_dec 50 v); lra.
Qed.

Section WithGeoUtils.

Context `{GeoUtils}.

(** C6.  For every capsule the scene receives the angle
    [(90 - bearing) * pi / 180], the visual distance
    [clamp (distance / 5) 5 50] and the position
    [(cos angle * visualDistance, 0, - sin angle * visualDistance)];
    the visual distance lies between 5 and 50 for every raw distance,
    the nonnegative ones among them. *)
Theorem projection_is_clamped (userLocation : Coordinates)
    (capsule : Capsule) :
  let distance := calculateDistance userLocation (coordinates capsule) in
  let bearing := calculateBearing userLocation (coordinates capsule) in
  let p := ARView.place userLocation capsule in
  ARView.angleRad p = (90 - bearing) * PI / 180
  /\ ARView.visualDistance p = Spec.clamp (distance / 5) 5 50
  /\ ARView.position p
     = (cos (ARView.angleRad p) * ARView.visualDistance p, 0,
        - sin (ARView.angleRad p) * ARView.visualDistance p)
  /\ 5 <= ARView.visualDistance p <= 50
  /\ (forall d : R, 5 <= Rmax 5 (Rmin (d / 5) 50) <= 50)
  /\ (forall capsules,
        ARView.createObjects true (Some userLocation) capsules
        = map (ARView.place userLocation) capsules).
Proof.
  intros distance bearing p. subst p. cbn.
  fold distance bearing.
  split; [lra|]. split; [apply max_min_is_clamp|]. split; [reflexivity|].
  split; [rewrite max_min_is_clamp; apply clamp_bounds|].
  split; [intros d; rewrite max_min_is_clamp; apply clamp_bounds|].
  reflexivity.
Qed.

(** C7.  The three places that decide on unlocking (the scene object, the
    detail panel of the AR view and the row of the capsule list) unlock
    exactly below 50 m: at 49 m they do, at 50 m they do not; a row
    without a location, at the distance [Infinity], does not. *)
Theorem unlock_is_strictly_below_50_meters (loc : Coordinates)
    (capsule : Capsule) :
  let d := calculateDistance loc (coordinates capsule) in
  (ARView.isUnlockable (ARView.place loc capsule) = true
   <-> Spec.isUnlockable d)
  /\ (ARView.panelUnlocked loc capsule = true <-> Spec.isUnlockable d)
  /\ (CapsuleList.isUnlockable (Some loc) capsule = true
      <-> Spec.isUnlockable d)
  /\ CapsuleList.isUnlockable None capsule = false
  /\ (d = 49 ->
      ARView.isUnlockable (ARView.place loc capsule) = true
      /\ ARView.panelUnlocked loc capsule = true
      /\ CapsuleList.isUnlockable (Some loc) capsule = true)
  /\ (d = 50 ->
      ARView.isUnlockable (ARView.place loc capsule) = false
      /\ ARView.panelUnlocked loc capsule = false
      /\ CapsuleList.isUnlockable (Some loc) capsule = false).
Proof.
  intros d. unfold Spec.isUnlockable, ARView.panelUnlocked,
    CapsuleList.isUnlockable, CapsuleList.distance. cbn. fold d.
  split; [apply ltb_lt|]. split; [apply ltb_lt|]. split; [apply ltb_lt|].
  split; [reflexivity|].
  split; intros ->.
  - replace (ltb 49 50) with true by (symmetry; apply ltb_lt; lra).
    repeat split.
  - replace (ltb 50 50) with false by (symmetry; apply ltb_ge; lra).
    repeat split.
Qed.

Lemma fixless_step (st : App.State) (ev : App.Event) :
  App.location st = None -> App.nearbyCapsules st = [] ->
  Places.fixless ev ->
  App.location (App.step st ev) = None
  /\ App.nearbyCapsules (App.step st ev) = [].
Proof.
  intros Hloc Hnear Hev.
  destruct ev as [lat lon| |saved|user started ? ? ? ? ? ? ? ? ?|v];
    cbn [App.step].
  - contradiction.
  - split; assumption.
  - unfold App.rerun. cbn. rewrite Hloc. cbn.
    split; [reflexivity|exact Hnear].
  - destruct user; [|split; assumption].
    unfold App.rerun. cbn. rewrite Hloc. cbn.
    split; [reflexivity|exact Hnear].
  - split; assumption.
Qed.

Lemma fixless_steps (st : App.State) (events : list App.Event) :
  App.location st = None -> App.nearbyCapsules st = [] ->
  Forall Places.fixless events ->
  App.location (fold_left App.step events st) = None
  /\ App.nearbyCapsules (fold_left App.step events st) = [].
Proof.
  intros Hloc Hnear Hevents. revert st Hloc Hnear.
  induction Hevents as [|ev events Hev _ IH]; intros st Hloc Hnear;
    [split; assumption|].
  cbn [fold_left].
  destruct (fixless_step st ev Hloc Hnear Hev) as [Hloc' Hnear'].
  apply IH; assumption.
Qed.

(** C9, as amended.  From a state without a location and without nearby
    capsules, as when the component mounts, and as long as no position
    arrives: the location stays missing and nothing throws, and the
    places that read the location go different ways.  Two substitute
    (0,0): [handleSaveCapsule] for the coordinates of the new capsule
    and [CreateCapsule.handleSave] for the coordinates it gives to
    [analyzeMemory].  The others substitute nothing: the effect of
    [CreateCapsule] sets a fixed name; a row of the capsule list takes
    [Infinity] for the distance, gives it to [formatDistance] and stays
    locked; the nearby effect and the object-creation effect return at
    once, so there are no nearby capsules, the list has no rows and the
    AR view is not rendered; a scan warns, goes on with the nearby
    capsules at hand and reports no traces.  The capsules saved at (0,0)
    are, at the first fix, filtered and unlocked by their distance from
    the user like any other, and (0,0) given as a location is passed on
    as it is. *)
Theorem without_a_fix `{GeoFormat} (st0 : App.State)
    (events : list App.Event) :
  App.location st0 = None -> App.nearbyCapsules st0 = [] ->
  Forall Places.fixless events ->
  let st := fold_left App.step events st0 in
  App.location st = None
  /\ App.nearbyCapsules st = []
  /\ (forall user now now' text aiAnalysis locationName image video audio
        signalData,
        exists newCapsule,
          App.handleSaveCapsule (Some user) (App.location st) now now' text
            aiAnalysis locationName image video audio signalData
          = ([App.appendCapsule newCapsule; App.setCurrentView radar;
              App.setStatusMessage "MEMORY TRACE ESTABLISHED."], Ok tt)
          /\ coordinates newCapsule = origin
          /\ App.capsules
               (App.step st
                  (App.Save (Some user) (App.location st) now now' text
                     aiAnalysis locationName image video audio signalData))
             = (App.capsules st ++ [newCapsule])%list
          /\ App.nearbyCapsules
               (App.step st
                  (App.Save (Some user) (App.location st) now now' text
                     aiAnalysis locationName image video audio signalData))
             = [])
  /\ Places.analysisCoordinates (App.location st) = (0, 0)
  /\ (forall identifyLocation isMounted,
        Places.fetchLocation identifyLocation isMounted (App.location st)
        = Some "Unknown Sector (No GPS)")
  /\ (forall c,
        CapsuleList.distance (App.location st) c = Infinity
        /\ Places.row (App.location st) c
           = Places.mkRow (formatDistance Infinity) false)
  /\ (forall v, Places.listRows (App.step st (App.Navigate v)) = [])
  /\ (forall v, Places.arViewProps (App.step st (App.Navigate v)) = None)
  /\ App.nearbyEffect (App.location st) (App.capsules st) = ret tt
  /\ (forall scene capsules,
        ARView.createObjects scene (App.location st) capsules = [])
  /\ (exists timeout,
        App.handleScan (App.location st) (App.nearbyCapsules st)
        = ([App.setStatusMessage
              "WARNING: SATELLITE LINK UNSTABLE. SCANNING CACHED SECTOR...";
            App.setIsScanning true], Ok timeout)
        /\ App.callback timeout
           = ([App.setIsScanning false;
               App.setStatusMessage "NO TRACES FOUND IN SECTOR."], Ok tt))
  /\ (forall window,
        App.statusMessage (App.scan st window) = "NO TRACES FOUND IN SECTOR."
        /\ App.isScanning (App.scan st window) = false)
  /\ (forall lat lon,
        let loc := mkCoordinates lat lon in
        let st' := App.step st (App.Position lat lon) in
        App.location st' = Some loc
        /\ App.nearbyCapsules st'
           = filter (App.within1km loc) (App.capsules st)
        /\ forall c,
             In c (App.capsules st) -> coordinates c = origin ->
             (In c (App.nearbyCapsules st')
              <-> calculateDistance loc origin <= 1000)
             /\ (CapsuleList.isUnlockable (App.location st') c = true
                 <-> calculateDistance loc origin < 50))
  /\ (forall capsules,
        App.nearbyEffect (Some origin) capsules
        = call (App.setNearbyCapsules
                  (filter (App.within1km origin) capsules))
        /\ ARView.createObjects true (Some origin) capsules
           = map (ARView.place origin) capsules).
Proof.
  intros Hloc0 Hnear0 Hevents st.
  destruct (fixless_steps st0 events Hloc0 Hnear0 Hevents) as [Hloc Hnear].
  fold st in Hloc, Hnear.
  split; [exact Hloc|]. split; [exact Hnear|]. rewrite Hloc, Hnear.
  split.
  { intros user now now' text aiAnalysis locationName image video audio
      signalData.
    eexists. split; [reflexivity|]. split; [reflexivity|].
    unfold App.rerun. cbn. rewrite Hloc. cbn.
    split; [reflexivity|exact Hnear]. }
  split; [unfold Places.analysisCoordinates, Places.orZero; reflexivity|].
  split; [reflexivity|].
  split; [intros c; split; reflexivity|].
  split.
  { intros v. unfold Places.listRows. cbn. rewrite Hnear.
    destruct v; reflexivity. }
  split.
  { intros v. unfold Places.arViewProps. cbn. rewrite Hloc.
    destruct v; reflexivity. }
  split; [reflexivity|].
  split; [intros scene capsules; reflexivity|].
  split; [eexists; split; reflexivity|].
  split.
  { intros window. rewrite Radar.scan_is_timeout_after_window.
    rewrite Hnear. split; reflexivity. }
  split.
  { intros lat lon loc st'. subst st'. unfold App.rerun. cbn.
    split; [reflexivity|]. split; [reflexivity|].
    intros c Hin Hc. rewrite filter_In. unfold App.within1km.
    unfold CapsuleList.isUnlockable, CapsuleList.distance, num_ltb.
    rewrite Hc, leb_le, ltb_lt. fold loc.
    split; [|reflexivity]. split; [intros [_ Hd]; exact Hd|].
    intros Hd. split; assumption. }
  intros capsules. split; reflexivity.
Qed.

End WithGeoUtils.

Import Scenario.

(** A capsule 100 m to the north stands 20 units in front of the
    camera. *)
Lemma projection_is_clamped_witness :
  ARView.visualDistance (@ARView.place meridian origin (capsuleAt "n" 100))
  = 20
  /\ ARView.position (@ARView.place meridian origin (capsuleAt "n" 100))
     = (0, 0, -20).
Proof.
  destruct (@projection_is_clamped meridian origin (capsuleAt "n" 100))
    as (Hangle & Hvisual & Hposition & _).
  rewrite Selection.meridian_distance in Hvisual by lra.
  assert (Hbearing :
            @calculateBearing meridian origin
              (coordinates (capsuleAt "n" 100)) = 0).
  { cbn. destruct (Rle_dec 0 100); [reflexivity|lra]. }
  rewrite Hbearing in Hangle.
  assert (Hclamp : Spec.clamp (100 / 5) 5 50 = 20).
  { unfold Spec.clamp.
    destruct (Rlt_dec (100 / 5) 5), (Rlt_dec 50 (100 / 5)); lra. }
  rewrite Hclamp in Hvisual.
  split; [exact Hvisual|].
  rewrite Hposition, Hvisual, Hangle.
  replace ((90 - 0) * PI / 180) with (PI / 2) by lra.
  rewrite cos_PI2, sin_PI2. f_equal; [f_equal|]; lra.
Defined.

(** Section 8: a capsule at 49 m is unlockable, one at 50 m is not. *)
Lemma unlock_is_strictly_below_50_meters_witness :
  @CapsuleList.isUnlockable meridian (Some origin) (capsuleAt "in" 49) = true
  /\ @CapsuleList.isUnlockable meridian (Some origin) (capsuleAt "out" 50)
     = false.
Proof.
  split.
  - apply (@unlock_is_strictly_below_50_meters meridian origin
             (capsuleAt "in" 49)).
    apply Selection.meridian_distance. lra.
  - apply (@unlock_is_strictly_below_50_meters meridian origin
             (capsuleAt "out" 50)).
    apply Selection.meridian_distance. lra.
Defined.

(** Before the first fix: a position error, a capsule saved by
    operator1, and the list opened. *)
Lemma without_a_fix_witness :
  let st :=
    fold_left (@App.step meridian)
      [App.PositionError;
       App.Save (Some Visitors.operator1) None 1700000000000 1700000000001
         "hello" "log" "Unknown Sector (No GPS)" None None None None;
       App.Navigate view_capsule]
      Persistence.initial in
  App.location st = None
  /\ App.nearbyCapsules st = []
  /\ @Places.listRows meridian Visitors.plainFormat st = [].
Proof.
  pose proof (@without_a_fix meridian Visitors.plainFormat
                Persistence.initial
                [App.PositionError;
                 App.Save (Some Visitors.operator1) None 1700000000000
                   1700000000001 "hello" "log" "Unknown Sector (No GPS)"
                   None None None None;
                 App.Navigate view_capsule]
                eq_refl eq_refl
                ltac:(repeat constructor))
    as (Hloc & Hnear & _).
  split; [exact Hloc|]. split; [exact Hnear|reflexivity].
Defined.

(** C9 as stated fails in the capsule list and in the nearby effect: no
    (0,0) takes the place of the missing location.  A capsule 10 m from
    (0,0) would be unlocked and nearby for the location (0,0); without a
    location its row is locked, at the distance [Infinity], and the
    nearby capsules are not set. *)
Lemma no_sentinel_for_a_missing_location :
  (forall (G : GeoUtils) (c : Capsule),
     CapsuleList.distance None c <> CapsuleList.distance (Some origin) c)
  /\ @CapsuleList.isUnlockable meridian None (capsuleAt "near" 10) = false
  /\ @CapsuleList.isUnlockable meridian (Some origin) (capsuleAt "near" 10)
     = true
  /\ calls (@App.nearbyEffect meridian None [capsuleAt "near" 10]) = []
  /\ calls (@App.nearbyEffect meridian (Some origin) [capsuleAt "near" 10])
     = [App.setNearbyCapsules [capsuleAt "near" 10]].
Proof.
  split; [intros G c; discriminate|].
  split; [reflexivity|].
  unfold CapsuleList.isUnlockable, CapsuleList.distance, App.nearbyEffect,
    App.within1km, num_ltb.
  cbn [filter].
  rewrite !Selection.meridian_distance by lra.
  replace (ltb 10 50) with true by (symmetry; apply ltb_lt; lra).
  replace (leb 10 1000) with true by (symmetry; apply leb_le; lra).
  repeat split.
Qed.

End Anchoring.

(* ================================================================== *)
(** * Part III: further properties of the code                         *)
(* ================================================================== *)

(** ** The classifier on a flat palm, and over time *)

Module Frames.

Import Js JsFacts ARView GestureFacts Perception.
Local Open Scope R_scope.

Lemma planarDistance_nonneg (p q : Landmark) :
  0 <= Spec.planarDistance p q.
Proof. apply sqrt_pos. Qed.

Lemma below_zero_palm (p q : Landmark) (r : R) :
  ltb (Spec.planarDistance p q) (0 * r) = false.
Proof.
  apply ltb_ge. pose proof (planarDistance_nonneg p q). lra.
Qed.

(** A tick that shows one frame of 21 landmarks. *)
Lemma tick_one_frame (env : Surroundings) (st : State) (r : Results)
    (frame : list Landmark) :
  handCanvas env = true -> context2d env = true ->
  multiHandLandmarks r = Some [frame] ->
  List.length frame = 21%nat ->
  tick env st r
  = let g := newState (Spec.foldedCount Spec.planarDistance frame) in
    mkState (selectedCapsule st) "TARGET ACQUIRED"
      (match g with NONE => handGesture st | _ => g end) true.
Proof.
  intros Hcanvas Hctx Hr Hlen. unfold tick, onResults, registered.
  rewrite Hcanvas, Hctx, Hr. cbn [negb forEach].
  rewrite detectGesture_planar by lia. cbn zeta.
  destruct (newState _), st as [sel dbg g det]; reflexivity.
Qed.

(** X2.  A frame of 21 landmarks whose knuckle lies over the wrist on
    the image (palm size zero) has no folded finger, whatever the tips
    are: the registered callback calls the setter with OPEN, and the
    gesture after the tick is OPEN whatever it was. *)
Theorem zero_palm_is_open (env : Surroundings) (st : State)
    (frame : list Landmark) :
  handCanvas env = true -> context2d env = true ->
  List.length frame = 21%nat ->
  x (Spec.landmark frame 9) = x (Spec.landmark frame 0) ->
  y (Spec.landmark frame 9) = y (Spec.landmark frame 0) ->
  foldedFingers frame = ret 0%nat
  /\ calls (detectGesture registered frame) = [setHandGesture OPEN]
  /\ handGesture (tick env st (mkResults (Some [frame]))) = OPEN.
Proof.
  intros Hcanvas Hctx Hlen Hx Hy.
  assert (Hlong : (20 < List.length frame)%nat) by lia.
  assert (Hpalm : Spec.palmSize Spec.planarDistance frame = 0).
  { unfold Spec.palmSize, Spec.planarDistance. rewrite Hx, Hy.
    replace (_ + _) with 0 by ring. apply sqrt_0. }
  assert (Hcount : Spec.foldedCount Spec.planarDistance frame = 0%nat).
  { unfold Spec.foldedCount, Spec.foldedb. rewrite Hpalm. cbn [filter].
    rewrite !below_zero_palm. reflexivity. }
  split; [|split].
  - rewrite foldedFingers_planar by exact Hlong. now rewrite Hcount.
  - rewrite detectGesture_planar by exact Hlong. rewrite Hcount.
    reflexivity.
  - rewrite (tick_one_frame env st (mkResults (Some [frame])) frame
               Hcanvas Hctx eq_refl Hlen).
    rewrite Hcount. reflexivity.
Qed.

Lemma zero_palm_is_open_witness :
  handGesture
    (tick Scenario.mounted (Scenario.showing CLOSED)
       (mkResults (Some [repeat Scenario.wrist0 21])))
  = OPEN.
Proof.
  exact (proj2 (proj2 (zero_palm_is_open Scenario.mounted
                         (Scenario.showing CLOSED)
                         (repeat Scenario.wrist0 21)
                         eq_refl eq_refl eq_refl eq_refl eq_refl))).
Defined.

(** X3.  A tick that shows one frame of 21 landmarks marks the hand as
    detected, leaves the selection alone and sets the gesture to the
    classification of the frame (by its number of folded fingers on the
    image plane), keeping the gesture it had when the frame is
    ambiguous. *)
Theorem tick_follows_the_classification (env : Surroundings) (st : State)
    (r : Results) (frame : list Landmark) :
  handCanvas env = true -> context2d env = true ->
  multiHandLandmarks r = Some [frame] ->
  List.length frame = 21%nat ->
  let n := Spec.foldedCount Spec.planarDistance frame in
  let st' := tick env st r in
  handDetected st' = true
  /\ debugStatus st' = "TARGET ACQUIRED"%string
  /\ selectedCapsule st' = selectedCapsule st
  /\ ((4 <= n)%nat -> handGesture st' = CLOSED)
  /\ ((n <= 1)%nat -> handGesture st' = OPEN)
  /\ (n = 2%nat \/ n = 3%nat -> handGesture st' = handGesture st).
Proof.
  intros Hcanvas Hctx Hr Hlen n st'. subst st'.
  rewrite (tick_one_frame env st r frame Hcanvas Hctx Hr Hlen). cbn zeta.
  fold n. rewrite newState_classification.
  destruct (classification_cases n) as (Hc & Ho & Ha).
  repeat split; intros Hn.
  - now rewrite (Hc Hn).
  - now rewrite (Ho Hn).
  - now rewrite (Ha Hn).
Qed.

Lemma tick_follows_the_classification_witness :
  handGesture
    (tick Scenario.mounted (Scenario.showing OPEN)
       (mkResults (Some [Scenario.fist])))
  = CLOSED.
Proof.
  apply (tick_follows_the_classification Scenario.mounted
           (Scenario.showing OPEN) (mkResults (Some [Scenario.fist]))
           Scenario.fist eq_refl eq_refl eq_refl eq_refl).
  rewrite Gesture.fist_count. lia.
Defined.

Lemma ambiguous_tick (env : Surroundings) (st : State) (r : Results) :
  ambiguous r ->
  handGesture (tick env st r) = handGesture st
  /\ selectedCapsule (tick env st r) = selectedCapsule st.
Proof.
  intros (frame & Hr & Hlen & Hn).
  destruct (handCanvas env) eqn:Hcanvas;
    [destruct (context2d env) eqn:Hctx|].
  - rewrite (tick_one_frame env st r frame Hcanvas Hctx Hr Hlen). cbn zeta.
    rewrite newState_classification.
    rewrite (proj2 (proj2 (classification_cases _)) Hn). split; reflexivity.
  - unfold tick, onResults. rewrite Hcanvas, Hctx. split; reflexivity.
  - unfold tick, onResults. rewrite Hcanvas. split; reflexivity.
Qed.

(** X4.  Ambiguous frames hold the gesture without limit: after any
    number of ticks that each show one frame of 21 landmarks with 2 or 3
    folded fingers, the gesture and the selection are what they were
    before the first of them. *)
Theorem ambiguous_run_holds_the_gesture (env : Surroundings) (st : State)
    (rs : list Results) :
  Forall ambiguous rs ->
  handGesture (ticks env st rs) = handGesture st
  /\ selectedCapsule (ticks env st rs) = selectedCapsule st.
Proof.
  intros Hrs. revert st. unfold ticks.
  induction Hrs as [|r rs Hr _ IH]; intros st; [split; reflexivity|].
  cbn [fold_left]. destruct (IH (tick env st r)) as [Hg Hs].
  destruct (ambiguous_tick env st r Hr) as [Hg' Hs'].
  split; congruence.
Qed.

Lemma ambiguous_run_holds_the_gesture_witness :
  handGesture
    (ticks Scenario.mounted (Scenario.showing CLOSED)
       (repeat (mkResults (Some [Scenario.twoFingers])) 3))
  = CLOSED.
Proof.
  refine (proj1 (ambiguous_run_holds_the_gesture Scenario.mounted
                   (Scenario.showing CLOSED)
                   (repeat (mkResults (Some [Scenario.twoFingers])) 3) _)).
  apply Forall_forall. intros r Hr. apply repeat_spec in Hr. subst r.
  exists Scenario.twoFingers. split; [reflexivity|]. split; [reflexivity|].
  left. exact Gesture.twoFingers_count.
Defined.

End Frames.

(** ** The selection: the effect, the sorted copy and the pointer *)

Module Interaction.

Import Js JsFacts ARView.
Local Open Scope R_scope.

Section Sorting.

Context {A : Type}.
Variable key : A -> R.

Lemma sort_insert_permutation (a : A) (s : list A) :
  Permutation (sort_insert (fun u v => key u - key v) a s) (a :: s).
Proof.
  induction s as [|b s IH]; [reflexivity|]. cbn [sort_insert].
  destruct (ltb 0 (key a - key b)); [|reflexivity].
  rewrite IH. apply perm_swap.
Qed.

Lemma sort_insert_sorted (a : A) (s : list A) :
  StronglySorted (fun u v => key u <= key v) s ->
  StronglySorted (fun u v => key u <= key v)
    (sort_insert (fun u v => key u - key v) a s).
Proof.
  induction 1 as [|b s Hs IH Hb]; cbn [sort_insert].
  - repeat constructor.
  - destruct (ltb 0 (key a - key b)) eqn:E.
    + apply ltb_lt in E. constructor; [exact IH|].
      apply Forall_forall. intros e He.
      apply (Permutation_in _ (sort_insert_permutation a s)) in He.
      destruct He as [<-|He]; [lra|].
      rewrite Forall_forall in Hb. apply Hb, He.
    + apply ltb_ge in E. constructor; [constructor; assumption|].
      constructor; [lra|].
      rewrite Forall_forall in Hb |- *. intros e He.
      specialize (Hb e He). lra.
Qed.

Lemma sort_permutation (l : list A) :
  Permutation (sort (fun u v => key u - key v) l) l.
Proof.
  induction l as [|a l IH]; [reflexivity|]. unfold sort. cbn [fold_right].
  rewrite sort_insert_permutation. constructor. exact IH.
Qed.

Lemma sort_sorted (l : list A) :
  StronglySorted (fun u v => key u <= key v)
    (sort (fun u v => key u - key v) l).
Proof.
  induction l as [|a l IH]; [constructor|]. unfold sort. cbn [fold_right].
  apply sort_insert_sorted, IH.
Qed.

End Sorting.

Section WithGeoUtils.

Context `{GeoUtils}.

(** X5.  The sorted copy that the interaction effect makes holds every
    capsule of the list as often as the list does, each one no farther
    from the user than the ones after it. *)
Theorem sorted_copy_is_ordered_by_distance (userLocation : Coordinates)
    (capsules : list Capsule) :
  let distance c := calculateDistance userLocation (coordinates c) in
  let sorted := sort (byDistance userLocation) capsules in
  Permutation sorted capsules
  /\ List.length sorted = List.length capsules
  /\ StronglySorted (fun a b => distance a <= distance b) sorted
  /\ (forall i j a b,
        (i < j)%nat -> nth_error sorted i = Some a ->
        nth_error sorted j = Some b -> distance a <= distance b).
Proof.
  intros distance sorted. subst sorted.
  change (byDistance userLocation) with (fun u v => distance u - distance v).
  pose proof (sort_permutation distance capsules) as Hperm.
  pose proof (sort_sorted distance capsules) as Hsorted.
  split; [exact Hperm|]. split; [apply Permutation_length, Hperm|].
  split; [exact Hsorted|].
  revert Hsorted. generalize (sort (fun u v => distance u - distance v)
                                capsules).
  intros l Hsorted. induction Hsorted as [|c l Hl IH Hc];
    intros i j a b Hij Hi Hj.
  - destruct i; discriminate.
  - destruct j as [|j]; [lia|]. cbn in Hj. destruct i as [|i].
    + cbn in Hi. inversion Hi; subst.
      rewrite Forall_forall in Hc. apply Hc. eapply nth_error_In, Hj.
    + cbn in Hi. apply (IH i j); [lia|assumption|assumption].
Qed.

Lemma interactionEffect_cases (g : Gesture) (capsules : list Capsule)
    (loc : Coordinates) (sel : option Capsule) :
  let distance c := calculateDistance loc (coordinates c) in
  (g = OPEN /\ sel = None /\ capsules <> []
   /\ exists c,
        interactionEffect g capsules loc sel = call (setSelectedCapsule (Some c))
        /\ In c capsules
        /\ forall e, In e capsules -> distance c <= distance e)
  \/ (g = CLOSED /\ sel <> None
      /\ interactionEffect g capsules loc sel
         = call (setSelectedCapsule None))
  \/ (interactionEffect g capsules loc sel = ret tt
      /\ ~ (g = OPEN /\ sel = None /\ capsules <> [])
      /\ ~ (g = CLOSED /\ sel <> None)).
Proof.
  intros distance. unfold interactionEffect.
  destruct g, sel as [s|]; cbn [Gesture_eqb negb andb].
  - right. right. split; [reflexivity|].
    split; [intros (_ & ? & _)|intros (? & _)]; congruence.
  - destruct capsules as [|c0 rest] eqn:E.
    + right. right. split; [reflexivity|].
      split; [intros (_ & _ & ?)|intros (? & _)]; congruence.
    + left. cbn [List.length Nat.ltb Nat.leb]. rewrite <- E.
      assert (Hne : capsules <> []) by (rewrite E; discriminate).
      destruct (Selection.sort_head distance capsules Hne)
        as (c & Hhead & Hleast).
      change (byDistance loc) with (fun u v => distance u - distance v).
      rewrite Hhead. repeat split; try assumption.
      exists c. split; [reflexivity|]. split.
      * destruct Hleast as (before & after & -> & _).
        apply in_or_app. right. now left.
      * intros e He.
        exact (Selection.first_least_lower_bound distance _ _ _ Hleast He).
  - right. left. split; [reflexivity|]. split; [discriminate|reflexivity].
  - right. right. split; [reflexivity|].
    split; [intros (? & _)|intros (_ & ?)]; congruence.
  - right. right. split; [reflexivity|].
    split; [intros (? & _)|intros (? & _)]; congruence.
  - right. right. split; [reflexivity|].
    split; [intros (? & _)|intros (? & _)]; congruence.
Qed.

(** X6.  The interaction effect changes the selection in two cases
    only: with the gesture OPEN, nothing selected and capsules at hand
    it selects one of these capsules, none of which is nearer; with the
    gesture CLOSED and a capsule selected it clears the selection.  In
    every other case, so for the gesture NONE, for OPEN with a capsule
    selected and for CLOSED with none, it calls no setter. *)
Theorem selection_changes_by_open_hand_or_fist (st : State)
    (capsules : list Capsule) (loc : Coordinates) :
  let distance c := calculateDistance loc (coordinates c) in
  let run :=
    interactionEffect (handGesture st) capsules loc (selectedCapsule st) in
  (handGesture st = OPEN /\ selectedCapsule st = None /\ capsules <> []
   /\ exists c,
        selectedCapsule (commit st run) = Some c
        /\ In c capsules
        /\ forall e, In e capsules -> distance c <= distance e)
  \/ (handGesture st = CLOSED /\ selectedCapsule st <> None
      /\ selectedCapsule (commit st run) = None)
  \/ (calls run = [] /\ commit st run = st
      /\ ~ (handGesture st = OPEN /\ selectedCapsule st = None
            /\ capsules <> [])
      /\ ~ (handGesture st = CLOSED /\ selectedCapsule st <> None)).
Proof.
  intros distance run. subst run.
  destruct (interactionEffect_cases (handGesture st) capsules loc
              (selectedCapsule st))
    as [(Hg & Hs & Hc & c & E & Hin & Hmin)
       |[(Hg & Hs & E)|(E & Hn1 & Hn2)]]; rewrite E.
  - left. repeat split; try assumption. exists c. repeat split; assumption.
  - right. left. repeat split; assumption.
  - right. right. repeat split; assumption.
Qed.

(** X7.  The interaction effect comes to rest after one run: on the
    state that its own setter call leaves, with the same gesture,
    capsules and location, it calls no setter.  A selection made by the
    open hand stays, and so does a selection cleared by the fist. *)
Theorem interaction_effect_settles (st : State) (capsules : list Capsule)
    (loc : Coordinates) :
  let st' :=
    commit st
      (interactionEffect (handGesture st) capsules loc (selectedCapsule st))
  in
  calls (interactionEffect (handGesture st') capsules loc
           (selectedCapsule st')) = []
  /\ handGesture st' = handGesture st.
Proof.
  intros st'. subst st'.
  destruct (interactionEffect_cases (handGesture st) capsules loc
              (selectedCapsule st))
    as [(Hg & Hs & Hc & c & E & _)|[(Hg & Hs & E)|(E & _)]]; rewrite E.
  - cbn. rewrite Hg. split; reflexivity.
  - cbn. rewrite Hg. split; reflexivity.
  - cbn. rewrite E. split; reflexivity.
Qed.

(** X8.  A capsule picked by the pointer while the gesture is CLOSED
    does not stay selected: the interaction effect, which runs when the
    selection has changed, clears it.  With the gesture OPEN or NONE the
    picked capsule stays. *)
Theorem fist_undoes_a_pick (st : State) (picked : Capsule)
    (capsules : list Capsule) (loc : Coordinates) :
  let st1 := apply st (setSelectedCapsule (Some picked)) in
  let st2 :=
    commit st1
      (interactionEffect (handGesture st1) capsules loc
         (selectedCapsule st1)) in
  (handGesture st = CLOSED -> selectedCapsule st2 = None)
  /\ (handGesture st <> CLOSED -> selectedCapsule st2 = Some picked).
Proof.
  intros st1 st2. subst st1 st2. cbn [apply handGesture selectedCapsule].
  unfold interactionEffect. destruct (handGesture st); cbn; split;
    intros; congruence.
Qed.

End WithGeoUtils.

Lemma fist_undoes_a_pick_witness :
  selectedCapsule
    (commit (apply (Scenario.showing CLOSED)
               (setSelectedCapsule (Some (Scenario.capsuleAt "a" 10))))
       (@interactionEffect Scenario.meridian CLOSED
          [Scenario.capsuleAt "a" 10] origin
          (Some (Scenario.capsuleAt "a" 10))))
  = None.
Proof.
  exact (proj1 (@fist_undoes_a_pick Scenario.meridian
                  (Scenario.showing CLOSED) (Scenario.capsuleAt "a" 10)
                  [Scenario.capsuleAt "a" 10] origin) eq_refl).
Defined.

End Interaction.

(** ** The overlay box *)

Module OverlayFacts.

Import Js JsFacts ARView Overlay.
Local Open Scope R_scope.

Lemma grow_bounds (width height : R) (b : Box) (lm : Landmark) :
  let b' := grow width height b lm in
  minX b' <= minX b /\ minY b' <= minY b
  /\ maxX b <= maxX b' /\ maxY b <= maxY b'
  /\ minX b' <= x lm * width <= maxX b'
  /\ minY b' <= y lm * height <= maxY b'.
Proof.
  unfold grow, toPixel. cbn [fst snd minX minY maxX maxY].
  repeat match goal with
         | |- context [ltb ?a ?c] =>
             let E := fresh "E" in
             destruct (ltb a c) eqn:E;
             [apply ltb_lt in E|apply ltb_ge in E]
         end; repeat split; lra.
Qed.

Lemma grow_picks (width height : R) (b : Box) (lm : Landmark) :
  let b' := grow width height b lm in
  (minX b' = minX b \/ minX b' = x lm * width)
  /\ (minY b' = minY b \/ minY b' = y lm * height)
  /\ (maxX b' = maxX b \/ maxX b' = x lm * width)
  /\ (maxY b' = maxY b \/ maxY b' = y lm * height).
Proof.
  unfold grow, toPixel. cbn [fst snd minX minY maxX maxY].
  repeat match goal with
         | |- context [ltb ?a ?c] => destruct (ltb a c)
         end; repeat split; auto.
Qed.

Lemma fold_grow_bounds (width height : R) (landmarks : list Landmark)
    (b : Box) :
  let b' := fold_left (grow width height) landmarks b in
  (minX b' <= minX b /\ minY b' <= minY b
   /\ maxX b <= maxX b' /\ maxY b <= maxY b')
  /\ forall lm, In lm landmarks ->
       minX b' <= x lm * width <= maxX b'
       /\ minY b' <= y lm * height <= maxY b'.
Proof.
  revert b. induction landmarks as [|l ls IH]; intros b; cbn [fold_left].
  - split; [repeat split; lra|intros lm []].
  - destruct (IH (grow width height b l)) as [Hmono Hin].
    pose proof (grow_bounds width height b l) as Hg. cbn zeta in Hg.
    split; [repeat split; lra|].
    intros lm [<-|Hlm]; [repeat split; lra|apply Hin, Hlm].
Qed.

Lemma fold_grow_picks (width height : R) (landmarks : list Landmark)
    (b : Box) :
  let b' := fold_left (grow width height) landmarks b in
  (minX b' = minX b \/ exists lm, In lm landmarks /\ minX b' = x lm * width)
  /\ (minY b' = minY b
      \/ exists lm, In lm landmarks /\ minY b' = y lm * height)
  /\ (maxX b' = maxX b
      \/ exists lm, In lm landmarks /\ maxX b' = x lm * width)
  /\ (maxY b' = maxY b
      \/ exists lm, In lm landmarks /\ maxY b' = y lm * height).
Proof.
  revert b. induction landmarks as [|l ls IH]; intros b; cbn [fold_left].
  - repeat split; now left.
  - destruct (IH (grow width height b l)) as (H1 & H2 & H3 & H4).
    destruct (grow_picks width height b l) as (G1 & G2 & G3 & G4).
    repeat split.
    + destruct H1 as [->|(lm & Hin & ->)];
        [destruct G1 as [->| ->]; [now left|right; exists l; split; auto;
                                             now left]
        |right; exists lm; split; [now right|reflexivity]].
    + destruct H2 as [->|(lm & Hin & ->)];
        [destruct G2 as [->| ->]; [now left|right; exists l; split; auto;
                                             now left]
        |right; exists lm; split; [now right|reflexivity]].
    + destruct H3 as [->|(lm & Hin & ->)];
        [destruct G3 as [->| ->]; [now left|right; exists l; split; auto;
                                             now left]
        |right; exists lm; split; [now right|reflexivity]].
    + destruct H4 as [->|(lm & Hin & ->)];
        [destruct G4 as [->| ->]; [now left|right; exists l; split; auto;
                                             now left]
        |right; exists lm; split; [now right|reflexivity]].
Qed.

(** X9.  The box drawn around the hand holds every joint with a margin
    of 20 pixels on each side.  It is as small as that allows when the
    hand is on the canvas: each side then lies 20 pixels from a joint.
    Without joints, or with all joints beyond an edge, a side stays 20
    pixels outside the edge of the canvas it started from. *)
Theorem overlay_box_holds_every_joint (width height : R)
    (landmarks : list Landmark) :
  let b := boundingBox width height landmarks in
  (forall lm, In lm landmarks ->
     minX b + 20 <= x lm * width <= maxX b - 20
     /\ minY b + 20 <= y lm * height <= maxY b - 20)
  /\ (minX b = width - 20
      \/ exists lm, In lm landmarks /\ minX b = x lm * width - 20)
  /\ (minY b = height - 20
      \/ exists lm, In lm landmarks /\ minY b = y lm * height - 20)
  /\ (maxX b = 20 \/ exists lm, In lm landmarks /\ maxX b = x lm * width + 20)
  /\ (maxY b = 20
      \/ exists lm, In lm landmarks /\ maxY b = y lm * height + 20).
Proof.
  intros b. subst b. unfold boundingBox, pad.
  cbn [minX minY maxX maxY].
  destruct (fold_grow_bounds width height landmarks
              (mkBox width height 0 0)) as [_ Hin].
  destruct (fold_grow_picks width height landmarks
              (mkBox width height 0 0)) as (H1 & H2 & H3 & H4).
  cbn [minX minY maxX maxY] in *.
  split.
  - intros lm Hlm. specialize (Hin lm Hlm). repeat split; lra.
  - repeat split.
    + destruct H1 as [->|(lm & Hlm & ->)]; [left; lra|].
      right. exists lm. split; [exact Hlm|lra].
    + destruct H2 as [->|(lm & Hlm & ->)]; [left; lra|].
      right. exists lm. split; [exact Hlm|lra].
    + destruct H3 as [->|(lm & Hlm & ->)]; [left; lra|].
      right. exists lm. split; [exact Hlm|lra].
    + destruct H4 as [->|(lm & Hlm & ->)]; [left; lra|].
      right. exists lm. split; [exact Hlm|lra].
Qed.

End OverlayFacts.

(** ** Placement in the scene, the compass and the pointer *)

Module Scene.

Import Js JsFacts ARView.
Local Open Scope R_scope.

Lemma clamp_monotone (u v : R) :
  u <= v -> Spec.clamp u 5 50 <= Spec.clamp v 5 50.
Proof.
  intros Huv. unfold Spec.clamp.
  destruct (Rlt_dec u 5), (Rlt_dec 50 u), (Rlt_dec v 5), (Rlt_dec 50 v); lra.
Qed.

Lemma triple_eq (a b c a' b' c' : R) :
  a = a' -> b = b' -> c = c' -> (a, b, c) = (a', b', c').
Proof. intros -> -> ->. reflexivity. Qed.

Section WithGeoUtils.

Context `{GeoUtils}.

(** X10.  Every capsule stands on the ground plane at its visual
    distance from the camera, which is at the origin of the scene: the
    squares of its two ground coordinates add up to the square of the
    visual distance, so it is at least 5 and at most 50 units away. *)
Theorem capsule_stands_at_its_visual_distance (userLocation : Coordinates)
    (capsule : Capsule) :
  let p := place userLocation capsule in
  let '(px, py, pz) := position p in
  py = 0
  /\ px ^ 2 + pz ^ 2 = visualDistance p ^ 2
  /\ sqrt (px ^ 2 + pz ^ 2) = visualDistance p
  /\ 25 <= px ^ 2 + pz ^ 2 <= 2500.
Proof.
  unfold place. cbn [position visualDistance].
  set (a := (90 - _) * (PI / 180)).
  set (v := Rmax 5 (Rmin _ 50)).
  assert (Hv : 5 <= v <= 50).
  { unfold v. rewrite Anchoring.max_min_is_clamp.
    apply Anchoring.clamp_bounds. }
  assert (Hsq : (cos a * v) ^ 2 + (- sin a * v) ^ 2 = v ^ 2).
  { pose proof (sin2_cos2 a) as Hone. unfold Rsqr in Hone.
    replace ((cos a * v) ^ 2 + (- sin a * v) ^ 2)
      with ((sin a * sin a + cos a * cos a) * v ^ 2) by ring.
    rewrite Hone. ring. }
  split; [reflexivity|]. split; [exact Hsq|]. split.
  - rewrite Hsq. replace (v ^ 2) with (v * v) by ring.
    apply sqrt_square. lra.
  - rewrite Hsq. nra.
Qed.

(** X11.  The visual distance grows with the distance and is the
    distance divided by 5 between 25 m and 250 m; every capsule within
    25 m stands at 5 units, every capsule beyond 250 m at 50 units, so
    that the scene does not tell such capsules apart by their
    distance. *)
Theorem visual_distance_compresses (userLocation : Coordinates)
    (a b : Capsule) :
  let distance c := calculateDistance userLocation (coordinates c) in
  let visual c := visualDistance (place userLocation c) in
  (distance a <= distance b -> visual a <= visual b)
  /\ (25 <= distance a <= 250 -> visual a = distance a / 5)
  /\ (distance a <= 25 -> visual a = 5)
  /\ (250 <= distance a -> visual a = 50).
Proof.
  intros distance visual. subst visual. cbn. fold (distance a) (distance b).
  rewrite !Anchoring.max_min_is_clamp.
  split; [intros Hab; apply clamp_monotone; lra|].
  unfold Spec.clamp.
  repeat split; intros Ha;
    destruct (Rlt_dec (distance a / 5) 5), (Rlt_dec 50 (distance a / 5));
    lra.
Qed.

(** X12.  Scene and compass agree.  When the device reports a compass
    heading other than zero that equals the bearing of a capsule, the
    rotation that [handleOrientation] gives the camera makes it look
    straight at the capsule: the position of the capsule is its visual
    distance along the view direction.  The same holds without a compass
    heading when [alpha], which turns the other way, is 360 minus the
    bearing.  A compass heading of exactly zero counts as missing, and
    the rotation is then taken from [alpha]. *)
Theorem camera_faces_the_capsule_it_points_at (userLocation : Coordinates)
    (capsule : Capsule) (alpha : option R) (heading : R) :
  let bearing := calculateBearing userLocation (coordinates capsule) in
  let p := place userLocation capsule in
  let towards theta :=
    let '(dx, dy, dz) := Orientation.viewDirection theta in
    (dx * visualDistance p, dy * visualDistance p, dz * visualDistance p) in
  (heading <> 0 -> heading = bearing ->
   position p
   = towards (Orientation.handleOrientation alpha (Some heading)))
  /\ position p
     = towards (Orientation.handleOrientation (Some (360 - bearing)) None)
  /\ Orientation.handleOrientation alpha (Some 0)
     = Orientation.handleOrientation alpha None.
Proof.
  intros bearing p towards. subst p towards. cbn.
  fold bearing. unfold Orientation.handleOrientation, Orientation.truthy,
    Orientation.value, Orientation.degToRad.
  assert (Hshift : forall t,
             cos ((90 - t) * (PI / 180)) = sin (t * (PI / 180))
             /\ sin ((90 - t) * (PI / 180)) = cos (t * (PI / 180))).
  { intros t.
    replace ((90 - t) * (PI / 180)) with (PI / 2 - t * (PI / 180)) by lra.
    split; [apply cos_shift|apply sin_shift]. }
  destruct (Hshift bearing) as [Hcos Hsin].
  split; [|split].
  - intros Hnz <-. destruct (Req_dec_T heading 0) as [E|_]; [contradiction|].
    rewrite Hcos, Hsin, sin_neg, cos_neg. apply triple_eq; ring.
  - rewrite Hcos, Hsin. destruct (Req_dec_T (360 - bearing) 0) as [E|_].
    + assert (Eb : bearing = 360) by lra. rewrite Eb.
      replace (360 * (PI / 180)) with (2 * PI) by lra.
      rewrite sin_2PI, cos_2PI, sin_0, cos_0. apply triple_eq; ring.
    + replace ((360 - bearing) * (PI / 180))
        with (- (bearing * (PI / 180)) + 2 * PI) by lra.
      rewrite sin_plus, cos_plus, sin_2PI, cos_2PI, sin_neg, cos_neg.
      apply triple_eq; ring.
  - destruct (Req_dec_T 0 0) as [_|E]; [reflexivity|contradiction].
Qed.

(** The objects of the scene carry the ids of the capsules, in order. *)
Lemma createObjects_ids (loc : Coordinates) (capsules : list Capsule)
    (i : nat) :
  nth_error (createObjects true (Some loc) capsules) i
  = option_map (place loc) (nth_error capsules i).
Proof.
  cbn. apply nth_error_map.
Qed.

Lemma find_first_id (capsules : list Capsule) (i : nat) (c : Capsule) :
  nth_error capsules i = Some c ->
  exists j c',
    find (fun e => String.eqb (id e) (id c)) capsules = Some c'
    /\ nth_error capsules j = Some c'
    /\ id c' = id c /\ (j <= i)%nat
    /\ forall k e, (k < j)%nat -> nth_error capsules k = Some e ->
                   id e <> id c.
Proof.
  revert i. induction capsules as [|a l IH]; intros i Hi.
  - destruct i; discriminate.
  - cbn [find]. destruct (String.eqb (id a) (id c)) eqn:E.
    + apply String.eqb_eq in E. exists 0%nat, a.
      repeat split; try assumption; try lia.
    + apply String.eqb_neq in E. destruct i as [|i].
      * cbn in Hi. inversion Hi; subst. congruence.
      * cbn in Hi. destruct (IH i Hi) as (j & c' & Hf & Hj & Hid & Hle & Hmin).
        exists (S j), c'. repeat split; try assumption; try lia.
        intros [|k] e Hk He; cbn in He.
        -- inversion He; subst. exact E.
        -- apply (Hmin k e); [lia|exact He].
Qed.

(** X13.  A click on the object of the scene made for the capsule at
    index [i] selects a capsule with the id of that capsule, whatever
    the gesture is: the first capsule of the list with this id, which is
    the capsule at [i] itself when no two capsules share an id. *)
Theorem click_selects_the_capsule_of_the_object (loc : Coordinates)
    (capsules : list Capsule) (i : nat) (c : Capsule) :
  nth_error capsules i = Some c ->
  let objects := createObjects true (Some loc) capsules in
  exists j c',
    Pointer.handleCanvasClick true (Some i) objects capsules
    = call (setSelectedCapsule (Some c'))
    /\ nth_error capsules j = Some c'
    /\ id c' = id c
    /\ (j <= i)%nat
    /\ (forall k e, (k < j)%nat -> nth_error capsules k = Some e ->
                    id e <> id c)
    /\ (NoDup (map id capsules) -> c' = c).
Proof.
  intros Hi objects. subst objects.
  destruct (find_first_id capsules i c Hi)
    as (j & c' & Hf & Hj & Hid & Hle & Hmin).
  exists j, c'. unfold Pointer.handleCanvasClick. cbn [negb].
  rewrite createObjects_ids, Hi. cbn [option_map place placed_id].
  rewrite Hf. repeat split; try assumption.
  intros Hnodup.
  assert (Hji : j = i).
  { apply (proj1 (NoDup_nth_error (map id capsules)) Hnodup).
    - rewrite length_map. apply nth_error_Some. congruence.
    - rewrite !nth_error_map, Hi, Hj. cbn. now rewrite Hid. }
  subst j. congruence.
Qed.

End WithGeoUtils.

Import Scenario.

(** A capsule to the south, with the device pointing south. *)
Lemma camera_faces_the_capsule_it_points_at_witness :
  ARView.position (@place meridian (mkCoordinates 100 0) (capsuleAt "s" 0))
  = (0, 0, 20).
Proof.
  assert (Hb : @calculateBearing meridian (mkCoordinates 100 0)
                 (coordinates (capsuleAt "s" 0)) = 180).
  { cbn. destruct (Rle_dec 100 0); [lra|reflexivity]. }
  pose proof (proj1 (@camera_faces_the_capsule_it_points_at meridian
                       (mkCoordinates 100 0) (capsuleAt "s" 0) None 180)
                ltac:(lra) (eq_sym Hb)) as Hface.
  rewrite Hface.
  unfold Orientation.handleOrientation, Orientation.truthy,
    Orientation.value, Orientation.degToRad, Orientation.viewDirection.
  destruct (Req_dec_T 180 0) as [E|_]; [lra|].
  replace (180 * (PI / 180)) with PI by lra.
  rewrite sin_neg, cos_neg, sin_PI, cos_PI.
  assert (Hv : visualDistance
                 (@place meridian (mkCoordinates 100 0) (capsuleAt "s" 0))
               = 20).
  { cbn. rewrite Anchoring.max_min_is_clamp. unfold Spec.clamp.
    replace (Rabs (0 - 100)) with 100
      by (rewrite Rabs_left; lra).
    destruct (Rlt_dec (100 / 5) 5), (Rlt_dec 50 (100 / 5)); lra. }
  rewrite Hv. apply triple_eq; ring.
Defined.

Lemma click_selects_the_capsule_of_the_object_witness :
  exists c',
    @Pointer.handleCanvasClick true (Some 1%nat)
      (@createObjects meridian true (Some origin)
         [capsuleAt "a" 10; capsuleAt "b" 2000])
      [capsuleAt "a" 10; capsuleAt "b" 2000]
    = call (setSelectedCapsule (Some c'))
    /\ id c' = "b"%string.
Proof.
  destruct (@click_selects_the_capsule_of_the_object meridian origin
              [capsuleAt "a" 10; capsuleAt "b" 2000] 1
              (capsuleAt "b" 2000) eq_refl)
    as (j & c' & Hclick & _ & Hid & _).
  exists c'. split; [exact Hclick|exact Hid].
Defined.

End Scene.

(** ** The component over time: nearby capsules, saving, broadcasting *)

Module Sector.

Import Js JsFacts App Persistence.
Local Open Scope R_scope.
Local Open Scope string_scope.

Section WithGeoUtils.

Context `{GeoUtils}.

Lemma consistent_ext (st st' : State) :
  location st' = location st -> capsules st' = capsules st ->
  nearbyCapsules st' = nearbyCapsules st ->
  consistent st -> consistent st'.
Proof.
  unfold consistent. intros -> -> ->. exact (fun H => H).
Qed.

Lemma rerun_consistent (st : State) :
  (location st = None -> nearbyCapsules st = []) -> consistent (rerun st).
Proof.
  unfold consistent, rerun, nearbyEffect.
  destruct (location st) as [loc|] eqn:E; cbn; rewrite E.
  - reflexivity.
  - intros Hnone. apply Hnone. reflexivity.
Qed.

Lemma consistent_none (st : State) :
  consistent st -> location st = None -> nearbyCapsules st = [].
Proof. unfold consistent. intros Hc E. now rewrite E in Hc. Qed.

Lemma step_consistent (st : State) (ev : Event) :
  consistent st -> consistent (step st ev).
Proof.
  intros Hc.
  destruct ev as [lat lon| |saved|user started ? ? ? ? ? ? ? ? ?|v];
    cbn [step].
  - apply rerun_consistent. cbn. discriminate.
  - revert Hc. apply consistent_ext; reflexivity.
  - apply rerun_consistent. cbn. apply consistent_none, Hc.
  - destruct user; [|exact Hc].
    apply rerun_consistent. cbn. apply consistent_none, Hc.
  - revert Hc. apply consistent_ext; reflexivity.
Qed.

Lemma steps_consistent (st : State) (events : list Event) :
  consistent st -> consistent (fold_left step events st).
Proof.
  revert st. induction events as [|ev events IH]; intros st Hc;
    [exact Hc|].
  cbn [fold_left]. apply IH, step_consistent, Hc.
Qed.

Lemma trigger_keeps (l : option Coordinates) (n : list Capsule)
    (st : State) :
  location (commit st (handleScan l n)) = location st
  /\ capsules (commit st (handleScan l n)) = capsules st
  /\ nearbyCapsules (commit st (handleScan l n)) = nearbyCapsules st.
Proof. destruct l; repeat split. Qed.

Lemma timeout_keeps (n : list Capsule) (st : State) :
  location (commit st (scanTimeout n)) = location st
  /\ capsules (commit st (scanTimeout n)) = capsules st
  /\ nearbyCapsules (commit st (scanTimeout n)) = nearbyCapsules st.
Proof. rewrite Radar.scanTimeout_calls. destruct n; repeat split. Qed.

(** X14.  The nearby capsules always agree with the location and the
    capsules: from a state where they do (as when the component mounts)
    every sequence of positions, position errors, loaded and saved
    capsules and navigation, and every scan with such events in its
    window, leads to a state where the nearby capsules are the capsules
    within 1000 m of the location, in the order of the list, or are
    none while no location is known. *)
Theorem nearby_stays_consistent (st : State) (events : list Event) :
  consistent st ->
  consistent (fold_left step events st)
  /\ consistent (scan st events)
  /\ forall c loc,
       location (fold_left step events st) = Some loc ->
       (In c (nearbyCapsules (fold_left step events st))
        <-> In c (capsules (fold_left step events st))
            /\ calculateDistance loc (coordinates c) <= 1000).
Proof.
  intros Hc. pose proof (steps_consistent st events Hc) as Hsteps.
  split; [exact Hsteps|]. split.
  - rewrite Radar.scan_is_timeout_after_window.
    destruct (timeout_keeps (nearbyCapsules st)
                (fold_left step events
                   (commit st (handleScan (location st)
                                 (nearbyCapsules st)))))
      as (E1 & E2 & E3).
    apply (consistent_ext _ _ E1 E2 E3). apply steps_consistent.
    destruct (trigger_keeps (location st) (nearbyCapsules st) st)
      as (T1 & T2 & T3).
    exact (consistent_ext _ _ T1 T2 T3 Hc).
  - intros c loc Hloc. unfold consistent in Hsteps. rewrite Hloc in Hsteps.
    rewrite Hsteps, filter_In. unfold within1km. rewrite leb_le. reflexivity.
Qed.

(** X15.  In the AR view, which shows the nearby capsules from the
    location of the user, the capsule that the open hand selects is one
    of the user's capsules, lies within 1000 m and is no farther than
    any other capsule within 1000 m. *)
Theorem open_hand_selects_within_1000_meters (st : State)
    (loc : Coordinates) (ar : ARView.State) :
  consistent st -> location st = Some loc ->
  ARView.handGesture ar = ARView.OPEN ->
  ARView.selectedCapsule ar = None ->
  nearbyCapsules st <> [] ->
  let distance c := calculateDistance loc (coordinates c) in
  exists c,
    ARView.selectedCapsule
      (ARView.commit ar
         (ARView.interactionEffect (ARView.handGesture ar)
            (nearbyCapsules st) loc (ARView.selectedCapsule ar)))
    = Some c
    /\ In c (capsules st)
    /\ distance c <= 1000
    /\ forall e, In e (capsules st) -> distance e <= 1000 ->
                 distance c <= distance e.
Proof.
  intros Hc Hloc Hopen Hnone Hnear distance.
  assert (Hmem : forall e,
             In e (nearbyCapsules st)
             <-> In e (capsules st) /\ distance e <= 1000).
  { intros e. unfold consistent in Hc. rewrite Hloc in Hc.
    rewrite Hc, filter_In. unfold within1km. rewrite leb_le. reflexivity. }
  destruct (Interaction.interactionEffect_cases (ARView.handGesture ar)
              (nearbyCapsules st) loc (ARView.selectedCapsule ar))
    as [(_ & _ & _ & c & E & Hin & Hmin)|[(Hg & _)|(_ & Hno & _)]].
  - rewrite E. exists c. split; [reflexivity|].
    apply Hmem in Hin. destruct Hin as [Hin Hd].
    repeat split; try assumption.
    intros e He Hde. apply Hmin, Hmem. split; assumption.
  - congruence.
  - exfalso. apply Hno. repeat split; assumption.
Qed.

(** X16.  A capsule is saved at the location of the render in which
    the save was started (at (0,0) when that render had none), after the
    capsules there were, bound to the user of that render and not
    locked.  With a location at the time of the save it is nearby at
    once exactly when the place of the capsule is within 1000 m of that
    location, and its row in the list is unlocked exactly when it is
    within 50 m; both hold when the location is still the one of the
    start and the distance of a place to itself is zero. *)
Theorem saved_capsule_is_nearby_and_unlocked (st : State) (user : User)
    (started : option Coordinates) (loc : Coordinates) (now now' : Z)
    (text aiAnalysis locationName : string)
    (image video audio signalData : option string) :
  location st = Some loc ->
  let place := match started with Some l => l | None => origin end in
  let st' :=
    step st (Save (Some user) started now now' text aiAnalysis locationName
               image video audio signalData) in
  exists newCapsule,
    capsules st' = (capsules st ++ [newCapsule])%list
    /\ coordinates newCapsule = place
    /\ userId newCapsule = user_id user
    /\ isLocked newCapsule = false
    /\ content newCapsule = text
    /\ currentView st' = radar
    /\ (In newCapsule (nearbyCapsules st')
        <-> calculateDistance loc place <= 1000)
    /\ (CapsuleList.isUnlockable (Some loc) newCapsule = true
        <-> calculateDistance loc place < 50)
    /\ (started = Some loc -> calculateDistance loc loc = 0 ->
        In newCapsule (nearbyCapsules st')
        /\ CapsuleList.isUnlockable (Some loc) newCapsule = true).
Proof.
  intros Hloc place st'. subst st'. cbn [step].
  unfold rerun. cbn -[place]. rewrite Hloc. cbn -[place].
  fold origin. fold place.
  set (newCapsule :=
         mkCapsule (toString now) text now' place locationName aiAnalysis
           false image video audio signalData (user_id user)).
  assert (Hnear : In newCapsule
                    (filter (within1km loc) (capsules st ++ [newCapsule]))
                  <-> calculateDistance loc place <= 1000).
  { rewrite filter_In. unfold within1km. cbn [coordinates newCapsule].
    rewrite leb_le. split; [intros [_ Hd]; exact Hd|].
    intros Hd. split; [|exact Hd]. apply in_or_app. right. now left. }
  assert (Hunlock : CapsuleList.isUnlockable (Some loc) newCapsule = true
                    <-> calculateDistance loc place < 50).
  { unfold CapsuleList.isUnlockable, CapsuleList.distance, num_ltb.
    cbn [coordinates newCapsule]. apply ltb_lt. }
  exists newCapsule.
  split; [reflexivity|]. split; [reflexivity|]. split; [reflexivity|].
  split; [reflexivity|]. split; [reflexivity|]. split; [reflexivity|].
  split; [exact Hnear|]. split; [exact Hunlock|].
  intros Hstarted Hzero. subst place. rewrite Hstarted in *.
  split; [apply Hnear|apply Hunlock]; rewrite Hzero; lra.
Qed.

End WithGeoUtils.

Import Scenario.

Lemma nearby_stays_consistent_witness :
  @consistent meridian
    (fold_left (@step meridian)
       [Position 3 0; Stored [capsuleAt "a" 10]; Navigate create] initial).
Proof.
  exact (proj1 (@nearby_stays_consistent meridian initial
                  [Position 3 0; Stored [capsuleAt "a" 10]; Navigate create]
                  eq_refl)).
Defined.

Lemma idle_consistent :
  @consistent meridian (idle [capsuleAt "near" 10]).
Proof.
  unfold consistent. cbn [idle location nearbyCapsules capsules filter].
  unfold within1km. rewrite Selection.meridian_distance by lra.
  replace (leb 10 1000) with true by (symmetry; apply leb_le; lra).
  reflexivity.
Qed.

Lemma open_hand_selects_within_1000_meters_witness :
  exists c,
    ARView.selectedCapsule
      (ARView.commit (showing ARView.OPEN)
         (@ARView.interactionEffect meridian ARView.OPEN
            [capsuleAt "near" 10] origin None))
    = Some c
    /\ @calculateDistance meridian origin (coordinates c) <= 1000.
Proof.
  destruct (@open_hand_selects_within_1000_meters meridian
              (idle [capsuleAt "near" 10]) origin (showing ARView.OPEN)
              idle_consistent eq_refl eq_refl eq_refl ltac:(discriminate))
    as (c & Hsel & _ & Hd & _).
  exists c. split; [exact Hsel|exact Hd].
Defined.

Lemma saved_capsule_is_nearby_and_unlocked_witness :
  exists c,
    capsules
      (@step meridian
         (mkState (Some (mkUser "usr_b3BlcmF0b3" "operator")) create
            (Some origin) false [] [] "")
         (Save (Some (mkUser "usr_b3BlcmF0b3" "operator")) (Some origin)
            1700000000000 1700000000001 "hello" "log" "Sector 7" None None
            None None))
    = [c]
    /\ @CapsuleList.isUnlockable meridian (Some origin) c = true.
Proof.
  destruct (@saved_capsule_is_nearby_and_unlocked meridian
              (mkState (Some (mkUser "usr_b3BlcmF0b3" "operator")) create
                 (Some origin) false [] [] "")
              (mkUser "usr_b3BlcmF0b3" "operator") (Some origin) origin
              1700000000000 1700000000001 "hello" "log" "Sector 7" None None
              None None eq_refl)
    as (c & Hcaps & _ & _ & _ & _ & _ & _ & _ & Hboth).
  exists c. split; [exact Hcaps|].
  apply Hboth; [reflexivity|].
  cbn. rewrite Rminus_diag. apply Rabs_R0.
Defined.

(** A fix that arrives between the start of a save and its end: the
    capsule stays at the place of the start, 2000 m from the user, so
    it is neither nearby nor unlocked. *)
Lemma saved_capsule_keeps_the_place_of_the_start :
  let st :=
    @step meridian
      (mkState (Some Visitors.operator1) create (Some (mkCoordinates 2000 0))
         false [] [] "")
      (Save (Some Visitors.operator1) (Some origin) 1700000000000
         1700000000001 "hello" "log" "Sector 7" None None None None) in
  map coordinates (capsules st) = [origin] /\ nearbyCapsules st = [].
Proof.
  cbn. unfold within1km. cbn.
  replace (leb (Rabs (0 - 2000)) 1000) with false; [split; reflexivity|].
  symmetry. apply leb_gt. rewrite Rabs_left; lra.
Qed.

(** X17.  Broadcasting a signal ends with the status "SIGNAL BROADCAST
    COMPLETE." in every case.  With the user of the render in which the
    transmission was started it saves one capsule that carries the grid
    as text, at the location of that render or at (0,0), after the
    capsules there are when the timer ends, and shows the radar; without
    a user it saves nothing and still reports the broadcast as
    complete. *)
Theorem broadcast_reports_complete (st : State) (user : option User)
    (started : option Coordinates) (now now' : Z)
    (grid : SignalComposer.Grid) :
  let run := Broadcast.handleBroadcastSignal user started now now' grid in
  statusMessage (commit st run) = "SIGNAL BROADCAST COMPLETE."
  /\ outcome run = Ok tt
  /\ (user = None ->
      calls run = [setStatusMessage "SIGNAL BROADCAST COMPLETE."]
      /\ capsules (commit st run) = capsules st)
  /\ (forall u, user = Some u ->
      exists c,
        capsules (commit st run) = (capsules st ++ [c])%list
        /\ signalData c = Some (Broadcast.stringify grid)
        /\ userId c = user_id u
        /\ coordinates c
           = match started with Some loc => loc | None => origin end
        /\ currentView (commit st run) = radar).
Proof.
  intros run. subst run. unfold Broadcast.handleBroadcastSignal.
  destruct user as [u|]; cbn.
  - split; [reflexivity|]. split; [reflexivity|].
    split; [discriminate|].
    intros user E. inversion E; subst. eexists.
    split; [reflexivity|]. repeat split.
  - split; [reflexivity|]. split; [reflexivity|].
    split; [intros _; split; reflexivity|].
    intros user E. discriminate.
Qed.

End Sector.

(** ** The signal composer *)

Module Composer.

Import Js SignalComposer.

Lemma assign_defined {A} (a : list (option A)) (i : nat) (c : option A)
    (v : A) :
  nth_error a i = Some c ->
  nth_error (assign a i v) i = Some (Some v)
  /\ List.length (assign a i v) = List.length a
  /\ (forall j, j <> i -> nth_error (assign a i v) j = nth_error a j).
Proof.
  revert i. induction a as [|c0 a IH]; intros [|i] Hi; try discriminate.
  - cbn. repeat split. intros [|j] Hj; [contradiction|reflexivity].
  - cbn in Hi. destruct (IH i Hi) as (H1 & H2 & H3). cbn.
    repeat split; [exact H1|now rewrite H2|].
    intros [|j] Hj; [reflexivity|]. cbn. apply H3. congruence.
Qed.

Lemma assign_back {A} (a : list (option A)) (i : nat) (v w : A) :
  nth_error a i = Some (Some v) -> assign (assign a i w) i v = a.
Proof.
  revert i. induction a as [|c0 a IH]; intros [|i] Hi; try discriminate.
  - cbn in *. inversion Hi. reflexivity.
  - cbn in *. f_equal. apply IH, Hi.
Qed.

Lemma replaceRow_defined (g : Grid) (row : nat) (r0 r : list Cell) :
  nth_error g row = Some r0 ->
  nth_error (replaceRow g row r) row = Some r
  /\ List.length (replaceRow g row r) = List.length g
  /\ (forall j, j <> row -> nth_error (replaceRow g row r) j = nth_error g j).
Proof.
  revert row. induction g as [|r1 g IH]; intros [|row] Hrow; try discriminate.
  - cbn. repeat split. intros [|j] Hj; [contradiction|reflexivity].
  - cbn in Hrow. destruct (IH row Hrow) as (H1 & H2 & H3). cbn.
    repeat split; [exact H1|now rewrite H2|].
    intros [|j] Hj; [reflexivity|]. cbn. apply H3. congruence.
Qed.

Lemma replaceRow_back (g : Grid) (row : nat) (r0 r : list Cell) :
  nth_error g row = Some r0 -> replaceRow (replaceRow g row r) row r0 = g.
Proof.
  revert row. induction g as [|r1 g IH]; intros [|row] Hrow; try discriminate.
  - cbn in *. inversion Hrow. reflexivity.
  - cbn in *. f_equal. apply IH, Hrow.
Qed.

(** X18.  Toggling a cell of the grid changes that cell alone and keeps
    the shape of the grid; toggling it again gives the grid back.  Of
    the two toggles the one that turns the cell on plays the sound of
    the row, the other one plays nothing. *)
Theorem toggle_twice_restores_the_grid (grid : Grid) (row col : nat)
    (r : list Cell) (b : bool) :
  nth_error grid row = Some r ->
  nth_error r col = Some (Some b) ->
  exists toggled r',
    calls (toggleCell grid row col)
    = setGrid toggled :: (if b then [] else [playSound row])
    /\ nth_error toggled row = Some r'
    /\ nth_error r' col = Some (Some (negb b))
    /\ List.length toggled = List.length grid
    /\ List.length r' = List.length r
    /\ (forall j, j <> col -> nth_error r' j = nth_error r j)
    /\ (forall i, i <> row -> nth_error toggled i = nth_error grid i)
    /\ calls (toggleCell toggled row col)
       = setGrid grid :: (if b then [playSound row] else []).
Proof.
  intros Hrow Hcol.
  destruct (assign_defined r col (Some b) (negb b) Hcol) as (A1 & A2 & A3).
  destruct (replaceRow_defined grid row r (assign r col (negb b)) Hrow)
    as (R1 & R2 & R3).
  exists (replaceRow grid row (assign r col (negb b))),
    (assign r col (negb b)).
  unfold toggleCell at 1. rewrite Hrow, Hcol. cbn [truthy].
  split; [destruct b; reflexivity|].
  repeat split; try assumption.
  unfold toggleCell. rewrite R1. unfold Cell in *. rewrite A1.
  cbn [truthy].
  rewrite Bool.negb_involutive, (assign_back r col b (negb b) Hcol).
  rewrite (replaceRow_back grid row r _ Hrow).
  destruct b; reflexivity.
Qed.

Lemma toggle_twice_restores_the_grid_witness :
  exists toggled,
    calls (toggleCell emptyGrid 2 5) = [setGrid toggled; playSound 2]
    /\ calls (toggleCell toggled 2 5) = [setGrid emptyGrid].
Proof.
  destruct (toggle_twice_restores_the_grid emptyGrid 2 5
              (repeat (Some false) COLS) false eq_refl eq_refl)
    as (toggled & r' & H1 & _ & _ & _ & _ & _ & _ & H2).
  exists toggled. split; [exact H1|exact H2].
Defined.

Lemma existsb_truthy (r : list Cell) :
  existsb truthy r = true
  <-> exists col, nth_error r col = Some (Some true).
Proof.
  rewrite existsb_exists. split.
  - intros ([[|]|] & Hin & Ht); try discriminate.
    apply In_nth_error in Hin. exact Hin.
  - intros (col & Hcol). exists (Some true). split; [|reflexivity].
    eapply nth_error_In, Hcol.
Qed.

(** X19.  A grid is transmitted exactly when one of its cells is on: it
    is then handed on unchanged; an empty grid, so the grid of a fresh
    or a cleared composer, is not transmitted and no setter is
    called. *)
Theorem only_a_sounding_grid_is_transmitted (grid : Grid) :
  let sounding :=
    exists row r col,
      nth_error grid row = Some r /\ nth_error r col = Some (Some true) in
  (sounding ->
   handleTransmit grid
   = ([setIsTransmitting true; setIsPlaying false], Ok (Some grid)))
  /\ (~ sounding -> handleTransmit grid = ret None)
  /\ handleTransmit emptyGrid = ret None
  /\ calls clearGrid = [setGrid emptyGrid; setIsPlaying false;
                        setCurrentStep (-1)].
Proof.
  intros sounding.
  assert (Hiff : isEmpty grid = false <-> sounding).
  { unfold isEmpty, sounding. rewrite Bool.negb_false_iff, existsb_exists.
    split.
    - intros (r & Hin & Hex). apply existsb_truthy in Hex.
      destruct Hex as (col & Hcol). apply In_nth_error in Hin.
      destruct Hin as (row & Hrow). exists row, r, col. split; assumption.
    - intros (row & r & col & Hrow & Hcol). exists r.
      split; [eapply nth_error_In, Hrow|].
      apply existsb_truthy. exists col. exact Hcol. }
  unfold handleTransmit. repeat split.
  - intros Hs. apply Hiff in Hs. rewrite Hs. reflexivity.
  - intros Hs. destruct (isEmpty grid) eqn:E; [reflexivity|].
    exfalso. apply Hs, Hiff. reflexivity.
Qed.

(** X20.  The sequencer walks the eight steps in a circle: from the
    rest position -1 it goes to step 0, from a step below 7 to the next
    one, from step 7 back to step 0, and it never leaves the steps 0 to
    7. *)
Theorem sequencer_walks_eight_steps (prev : Z) :
  (-1 <= prev < 8)%Z ->
  (0 <= nextStep prev < 8)%Z
  /\ ((prev < 7)%Z -> nextStep prev = (prev + 1)%Z)
  /\ (prev = 7%Z -> nextStep prev = 0%Z)
  /\ Nat.iter 8 nextStep (nextStep prev) = nextStep prev.
Proof.
  intros Hprev. unfold nextStep, COLS.
  assert (Hcases : prev = (-1)%Z \/ prev = 0%Z \/ prev = 1%Z \/ prev = 2%Z
                   \/ prev = 3%Z \/ prev = 4%Z \/ prev = 5%Z \/ prev = 6%Z
                   \/ prev = 7%Z) by lia.
  repeat destruct Hcases as [->|Hcases]; try subst prev;
    cbn; repeat split; intros; lia.
Qed.

Lemma sequencer_walks_eight_steps_witness : nextStep (-1) = 0%Z.
Proof.
  exact (proj1 (proj2 (sequencer_walks_eight_steps (-1)
                         ltac:(lia))) ltac:(lia)).
Defined.

End Composer.

(** ** Accounts and stored capsules *)

Module Accounts.

Import Js JsFacts App Auth Persistence.
Local Open Scope string_scope.

(** The encoding on known texts: "Man", "Ma", "M" and "operator". *)
Lemma base64_examples :
  btoa [77; 97; 110]%N = Some "TWFu"
  /\ btoa [77; 97]%N = Some "TWE="
  /\ btoa [77]%N = Some "TQ=="
  /\ option_map user_id
       (loginUser [111; 112; 101; 114; 97; 116; 111; 114]%N)
     = Some "usr_b3BlcmF0b3"
  /\ loginUser [115; 116; 114; 97; 110; 103; 101; 114]%N
     = Some Visitors.stranger.
Proof. repeat split. Qed.

Lemma storageKey_injective (u v : User) :
  storageKey u = storageKey v <-> user_id u = user_id v.
Proof.
  unfold storageKey. split; [|intros ->; reflexivity].
  cbn. intros E. inversion E. reflexivity.
Qed.

(** X21.  The id of a user depends on the first eight characters of the
    username only: two usernames of characters below 256 that agree on
    their first eight characters get the same id, and with it the same
    key for their stored capsules. *)
Theorem usernames_sharing_eight_characters_share_an_id
    (p s1 s2 : CodeUnits) :
  List.length p = 8%nat ->
  forallb (fun c => c <=? 255)%N (p ++ s1)%list = true ->
  forallb (fun c => c <=? 255)%N (p ++ s2)%list = true ->
  exists u v,
    loginUser (p ++ s1)%list = Some u
    /\ loginUser (p ++ s2)%list = Some v
    /\ user_id u = user_id v
    /\ storageKey u = storageKey v.
Proof.
  intros Hlen H1 H2. unfold loginUser, btoa. rewrite H1, H2.
  do 2 eexists. split; [reflexivity|]. split; [reflexivity|].
  assert (E : substring 0 10 (base64 (p ++ s1)%list)
              = substring 0 10 (base64 (p ++ s2)%list)).
  { do 8 (destruct p as [|? p]; [discriminate|]).
    destruct p; [|discriminate].
    cbn [List.app base64].
    destruct s1 as [|x1 s1], s2 as [|x2 s2]; cbn [base64 substring];
      reflexivity. }
  split.
  - cbn [user_id]. now rewrite E.
  - apply storageKey_injective. cbn [user_id]. now rewrite E.
Qed.

Lemma usernames_sharing_eight_characters_share_an_id_witness :
  exists u v,
    loginUser [111; 112; 101; 114; 97; 116; 111; 114; 49]%N = Some u
    /\ loginUser [111; 112; 101; 114; 97; 116; 111; 114; 50; 50]%N = Some v
    /\ user_id u = user_id v.
Proof.
  destruct (usernames_sharing_eight_characters_share_an_id
              [111; 112; 101; 114; 97; 116; 111; 114]%N [49]%N [50; 50]%N
              eq_refl eq_refl eq_refl)
    as (u & v & Hu & Hv & Hid & _).
  exists u, v. repeat split; assumption.
Defined.

(** X22.  A login fails exactly when the username holds a character
    above 255, for which [btoa] throws: no user is made then.  Every
    other username, the empty one too, gets a user whose id starts with
    "usr_" and has at most 14 characters. *)
Theorem login_fails_on_characters_above_255 (username : CodeUnits) :
  (loginUser username = None
   <-> exists c, In c username /\ (255 < c)%N)
  /\ (forall u, loginUser username = Some u ->
        substring 0 4 (user_id u) = "usr_"
        /\ (String.length (user_id u) <= 14)%nat).
Proof.
  unfold loginUser, btoa.
  destruct (forallb (fun c => (c <=? 255)%N) username) eqn:E.
  - split.
    + split; [discriminate|].
      intros (c & Hin & Hc). rewrite forallb_forall in E.
      specialize (E c Hin). apply N.leb_le in E. lia.
    + intros u Hu. inversion Hu; subst. cbn [user_id].
      split; [cbn; destruct (substring 0 10 (base64 username));
              reflexivity|].
      cbn [String.append String.length].
      assert (Hsub : forall n s, (String.length (substring 0 n s) <= n)%nat).
      { induction n as [|n IH]; intros [|c s]; cbn; try lia.
        specialize (IH s). lia. }
      specialize (Hsub 10%nat (base64 username)). lia.
  - split; [|discriminate]. split; [intros _|reflexivity].
    assert (Hex : existsb (fun c => negb (c <=? 255)%N) username = true).
    { clear -E. induction username as [|c l IH]; [discriminate|].
      cbn in *. destruct (c <=? 255)%N; cbn in *; [apply IH, E|reflexivity]. }
    apply existsb_exists in Hex. destruct Hex as (c & Hin & Hc).
    exists c. split; [exact Hin|].
    apply Bool.negb_true_iff, N.leb_gt in Hc. exact Hc.
Qed.

Section WithGeoUtils.

Context `{GeoUtils}.

Lemma settleUser_some (st : State) (user : User) (s : option User)
    (d : Storage) :
  currentUser st = Some user ->
  let stored :=
    match d (storageKey user) with Some l => l | None => [] end in
  let w := settleUser (mkWorld st s d) in
  capsules (app w) = stored
  /\ currentUser (app w) = Some user
  /\ session w = s
  /\ location (app w) = location st
  /\ data w = setItem (storageKey user) stored
                (setItem (storageKey user) (capsules st) d).
Proof.
  intros Huser stored w. subst w stored. unfold settleUser, loadEffect.
  cbn [app data session]. rewrite Huser.
  destruct (d (storageKey user)) as [l|]; cbn [calls call fst];
    unfold rerun, saveEffect;
    destruct (location st) eqn:Hloc; cbn; rewrite ?Huser, ?Hloc; cbn;
    rewrite ?Huser, ?Hloc; repeat split.
Qed.

Lemma handleLogout_state (w : World) :
  capsules (app (handleLogout w)) = []
  /\ currentUser (app (handleLogout w)) = None
  /\ session (handleLogout w) = None
  /\ data (handleLogout w) = data w.
Proof.
  unfold handleLogout, rerun, nearbyEffect. cbn.
  destruct (location (app w)); repeat split.
Qed.

(** X23.  Logging in shows the capsules stored for the user, none when
    nothing is stored, whatever capsules the component held before.
    Afterwards the store holds these capsules for the user and, for
    every other key, what it held before; when something was stored for
    the user the store is as it was, although the first render after
    the login writes the capsules of the component over the stored ones:
    they have been read before. *)
Theorem login_shows_the_stored_capsules (w : World) (user : User) :
  let stored :=
    match data w (storageKey user) with Some l => l | None => [] end in
  let w' := handleLoginSuccess user w in
  capsules (app w') = stored
  /\ currentUser (app w') = Some user
  /\ data w' (storageKey user) = Some stored
  /\ (forall key, key <> storageKey user -> data w' key = data w key)
  /\ (data w (storageKey user) <> None -> forall key, data w' key = data w key).
Proof.
  intros stored w'. subst w' stored. unfold handleLoginSuccess.
  destruct (settleUser_some (setCurrentUser (app w) (Some user)) user
              (session w) (data w) eq_refl)
    as (Hcaps & Huser & _ & _ & Hdata).
  split; [exact Hcaps|]. split; [exact Huser|]. rewrite Hdata.
  unfold setItem. split; [now rewrite String.eqb_refl|].
  split.
  - intros key Hkey. apply String.eqb_neq in Hkey. now rewrite Hkey.
  - intros Hsome key. destruct (String.eqb key (storageKey user)) eqn:E;
      [|reflexivity].
    apply String.eqb_eq in E. subst key.
    destruct (data w (storageKey user)); [reflexivity|congruence].
Qed.

(** X24.  What a user saves is there again after a logout and a new
    login, and after the page is loaded again: the capsules of the
    component are then the ones it held after the save, the saved
    capsule last, and the logout in between shows none of them.  The
    location of the render in which the save was started plays no
    part. *)
Theorem saved_capsules_survive_logout_and_reload (w : World) (user : User)
    (started : option Coordinates) (now now' : Z)
    (text aiAnalysis locationName : string)
    (image video audio signalData : option string) :
  currentUser (app w) = Some user ->
  session w = Some user ->
  let saved :=
    after w (Save (Some user) started now now' text aiAnalysis locationName
               image video audio signalData) in
  (exists c, capsules (app saved) = (capsules (app w) ++ [c])%list
             /\ userId c = user_id user)
  /\ capsules (app (handleLogout saved)) = []
  /\ currentUser (app (handleLogout saved)) = None
  /\ capsules (app (login user (handleLogout saved))) = capsules (app saved)
  /\ capsules (app (reload saved)) = capsules (app saved)
  /\ currentUser (app (reload saved)) = Some user
  /\ capsules (app (reload (handleLogout saved))) = [].
Proof.
  intros Huser Hsession saved.
  assert (Hsaved : exists c,
             capsules (app saved) = (capsules (app w) ++ [c])%list
             /\ userId c = user_id user
             /\ currentUser (app saved) = Some user
             /\ data saved (storageKey user) = Some (capsules (app saved))
             /\ session saved = Some user).
  { subst saved. unfold after. cbn [step app data session].
    unfold rerun, saveEffect.
    destruct (location (app w)) eqn:Hloc; cbn; rewrite ?Huser, ?Hloc; cbn;
      rewrite ?Huser, ?Hloc; cbn; unfold setItem;
      rewrite String.eqb_refl; eexists; repeat split; assumption. }
  destruct Hsaved as (c & Hcaps & Hid & Hu & Hdata & Hsess).
  split; [exists c; split; assumption|].
  destruct (handleLogout_state saved) as (L1 & L2 & L3 & L4).
  split; [exact L1|]. split; [exact L2|].
  split.
  - unfold login, handleLoginSuccess.
    match goal with
    | |- capsules (app (settleUser (mkWorld ?st ?s ?d))) = _ =>
        destruct (settleUser_some st user s d eq_refl) as (E & _)
    end.
    rewrite E. cbn [data]. rewrite L4, Hdata. reflexivity.
  - unfold reload. rewrite Hsess, L3.
    match goal with
    | |- capsules (app (settleUser (mkWorld ?st ?s ?d))) = _ /\ _ =>
        destruct (settleUser_some st user s d eq_refl) as (E & E' & _)
    end.
    rewrite E, E'. cbn [data]. rewrite Hdata. repeat split.
Qed.


(** X26.  Two users with the same id share their capsules: what one
    of them saves is shown to the other at the next login, bound to the
    id they share.  By X21 this is so for every two usernames that agree
    on their first eight characters. *)
Theorem users_with_the_same_id_share_capsules (w : World)
    (name1 name2 : CodeUnits) (u v : User) (started : option Coordinates)
    (now now' : Z) (text aiAnalysis locationName : string)
    (image video audio signalData : option string) :
  loginUser name1 = Some u ->
  loginUser name2 = Some v ->
  user_id u = user_id v ->
  currentUser (app w) = Some u ->
  let saved :=
    after w (Save (Some u) started now now' text aiAnalysis locationName
               image video audio signalData) in
  exists c,
    capsules (app (login v (handleLogout saved)))
    = (capsules (app w) ++ [c])%list
    /\ content c = text
    /\ userId c = user_id v.
Proof.
  intros _ _ Hid Huser saved.
  assert (Hkey : storageKey v = storageKey u)
    by (apply storageKey_injective; congruence).
  assert (Hsaved : exists c,
             capsules (app saved) = (capsules (app w) ++ [c])%list
             /\ content c = text /\ userId c = user_id v
             /\ data saved (storageKey u) = Some (capsules (app saved))).
  { subst saved. unfold after. cbn [step app data session].
    unfold rerun, saveEffect.
    destruct (location (app w)) eqn:Hloc; cbn; rewrite ?Huser, ?Hloc; cbn;
      rewrite ?Huser, ?Hloc; cbn; unfold setItem;
      rewrite String.eqb_refl; eexists; (split; [reflexivity|]);
      repeat split; cbn; congruence. }
  destruct Hsaved as (c & Hcaps & Htext & Hc & Hdata).
  exists c. rewrite <- Hcaps. repeat split; try assumption.
  unfold login, handleLoginSuccess.
  match goal with
  | |- capsules (app (settleUser (mkWorld ?st ?s ?d))) = _ =>
      destruct (settleUser_some st v s d eq_refl) as (E & _)
  end.
  rewrite E. cbn [data].
  destruct (handleLogout_state saved) as (_ & _ & _ & L4).
  now rewrite L4, Hkey, Hdata.
Qed.

End WithGeoUtils.

Import Scenario Visitors.

Lemma saved_capsules_survive_logout_and_reload_witness :
  capsules
    (app (@reload meridian
            (@after meridian session1
               (Save (Some operator1) (Some origin) 1700000000000
                  1700000000001 "hello" "log" "Sector 7" None None None
                  None))))
  = capsules
      (app (@after meridian session1
              (Save (Some operator1) (Some origin) 1700000000000
                 1700000000001 "hello" "log" "Sector 7" None None None
                 None))).
Proof.
  exact (proj1 (proj2 (proj2 (proj2 (proj2
           (@saved_capsules_survive_logout_and_reload meridian session1
              operator1 (Some origin) 1700000000000 1700000000001 "hello"
              "log" "Sector 7" None None None None eq_refl eq_refl)))))).
Defined.


Lemma users_with_the_same_id_share_capsules_witness :
  exists c,
    capsules
      (app (@login meridian operator22
              (@handleLogout meridian
                 (@after meridian session1
                    (Save (Some operator1) (Some origin) 1700000000000
                       1700000000001 "hello" "log" "Sector 7" None None None
                       None)))))
    = [c]
    /\ content c = "hello".
Proof.
  destruct (@users_with_the_same_id_share_capsules meridian session1
              [111; 112; 101; 114; 97; 116; 111; 114; 49]%N
              [111; 112; 101; 114; 97; 116; 111; 114; 50; 50]%N
              operator1 operator22 (Some origin)
              1700000000000 1700000000001 "hello" "log" "Sector 7"
              None None None None eq_refl eq_refl eq_refl eq_refl)
    as (c & Hcaps & Htext & _).
  exists c. split; [exact Hcaps|exact Htext].
Defined.

End Accounts.

(** ** The stats of the profile *)

Module Profile.

Import Js App ProfileView.

(** X27.  The synchronicity level lies between 12 and 100, grows with
    the number of capsules of the user and is 100 from six capsules on;
    the experience is 250 for each capsule.  A capsule saved by the user
    raises the count by one, since it is bound to the id of the user of
    the render in which the save was started; the capsules of others do
    not count. *)
Theorem profile_stats_follow_the_capsules `{GeoUtils} (st : State)
    (user : User) (saver : option User) (started : option Coordinates)
    (now now' : Z) (text aiAnalysis locationName : string)
    (image video audio signalData : option string) :
  let n := myCapsulesCount user (capsules st) in
  let st' :=
    step st (Save saver started now now' text aiAnalysis locationName image
               video audio signalData) in
  (12 <= synchronicityLevel n <= 100)%nat
  /\ (synchronicityLevel n = 100%nat <-> (6 <= n)%nat)
  /\ (forall m, (n <= m)%nat ->
                (synchronicityLevel n <= synchronicityLevel m)%nat)
  /\ (n <= List.length (capsules st))%nat
  /\ (saver = Some user ->
      myCapsulesCount user (capsules st') = S n
      /\ xp (myCapsulesCount user (capsules st')) = (xp n + 250)%nat)
  /\ (forall other, saver = Some other ->
                    user_id other <> user_id user ->
                    myCapsulesCount user (capsules st') = n).
Proof.
  intros n st'. unfold synchronicityLevel, xp.
  split; [lia|]. split; [lia|]. split; [intros m Hm; lia|].
  split; [apply filter_length_le|].
  assert (Hsave : forall u, saver = Some u ->
             exists c, capsules st' = (capsules st ++ [c])%list
                       /\ userId c = user_id u).
  { intros u Hu. subst st'. cbn [step]. rewrite Hu. unfold rerun.
    destruct (location st) eqn:Hloc; cbn; rewrite ?Hloc; cbn;
      eexists; split; reflexivity. }
  split.
  - intros Hu. destruct (Hsave user Hu) as (c & -> & Hc).
    unfold myCapsulesCount in *. rewrite filter_app, length_app.
    cbn [filter]. rewrite Hc, String.eqb_refl. cbn [List.length].
    fold n. lia.
  - intros other Hu Hother. destruct (Hsave other Hu) as (c & -> & Hc).
    unfold myCapsulesCount in *. rewrite filter_app, length_app.
    cbn [filter]. rewrite Hc.
    apply String.eqb_neq in Hother. rewrite Hother. cbn [List.length].
    fold n. lia.
Qed.

End Profile.
